(** * 4REF reference-image viewer: load, scale-to-fit and display state

    A shallow embedding of the logic of [src/4ref.py] and [src/Ref.py]
    (class [TextBasedImageViewer]): loading a picture from a URL, from the
    clipboard or from a dropped file, the two-stage scaling in
    [update_image], and the opacity / always-on-top / reset handlers.

    The Python object [self] and the widgets it owns become one record
    that every handler takes and returns; a handler that can raise returns
    an [outcome].  The toolkit and the HTTP library are modelled only as
    far as the handlers use them. *)

From Stdlib Require Import ZArith QArith Qround List String Ascii Bool Lia.
From Stdlib.Strings Require Import Byte.
From Stdlib Require Import DecimalString.
From Stdlib Require Floats Uint63.
Import ListNotations.
Local Open Scope string_scope.
Local Open Scope Z_scope.

(* ================================================================= *)
(** ** Python: strings, exceptions, statements *)

Module Py.

(** [str.lower()] on the characters this model has (8-bit): the ASCII
    capitals move down by 32, everything else stays. *)
Definition lower_char (c : ascii) : ascii :=
  let n := nat_of_ascii c in
  if (Nat.leb 65 n && Nat.leb n 90)%bool then ascii_of_nat (n + 32) else c.

Fixpoint lower (s : string) : string :=
  match s with
  | EmptyString => EmptyString
  | String c r => String (lower_char c) (lower r)
  end.

(** [s.endswith(suffix)]: some tail of [s] is [suffix]. *)
Fixpoint endswith (s suffix : string) : bool :=
  if String.eqb s suffix then true
  else match s with
       | EmptyString => false
       | String _ r => endswith r suffix
       end.

(** [str(n)] and [f"{n}"] for an [int]. *)
Definition str_int (n : Z) : string := NilZero.string_of_int (Z.to_int n).

(** An exception object: its class and the text [str(e)] gives. *)
Record Exn := mkExn { exn_class : string; exn_text : string }.

Definition str_exn (e : Exn) : string := exn_text e.

(** What running a statement on the state [S] ends in: a value, or an
    exception on its way up; either way the state is what the statement
    had made of it by then. *)
Inductive outcome (S A : Type) : Type :=
| Returned (a : A) (s : S)
| Raised (e : Exn) (s : S).
Arguments Returned {S A} a s.
Arguments Raised {S A} e s.

Definition Stmt (S A : Type) : Type := S -> outcome S A.

Definition ret {S A} (a : A) : Stmt S A := fun s => Returned a s.

Definition raise {S A} (e : Exn) : Stmt S A := fun s => Raised e s.

Definition bind {S A B} (c : Stmt S A) (k : A -> Stmt S B) : Stmt S B :=
  fun s => match c s with
           | Returned a s' => k a s'
           | Raised e s' => Raised e s'
           end.

(** A method that cannot raise, used as a statement. *)
Definition call {S} (f : S -> S) : Stmt S unit := fun s => Returned tt (f s).

(** [try: body  except Exception as e: handler(e)]. *)
Definition try_except {S A} (body : Stmt S A) (handler : Exn -> Stmt S A)
  : Stmt S A :=
  fun s => match body s with
           | Returned a s' => Returned a s'
           | Raised e s' => handler e s'
           end.

Definition state_of {S A} (o : outcome S A) : S :=
  match o with Returned _ s => s | Raised _ s => s end.

(** [xs[0]] on a list. *)
Definition index0 {S A} (xs : list A) : Stmt S A :=
  match xs with
  | [] => raise (mkExn "IndexError" "list index out of range")
  | x :: _ => ret x
  end.

End Py.

Notation "x <- c ;; k" := (Py.bind c (fun x => k))
  (at level 61, c at next level, right associativity).
Notation "c ;;; k" := (Py.bind c (fun _ => k))
  (at level 61, right associativity).

(* ================================================================= *)
(** ** The toolkit: sizes, pixmaps, labels *)

Module QSize.

Record t := mk { width : Z; height : Z }.

Definition eqb (a b : t) : bool :=
  (width a =? width b) && (height a =? height b).

(** [QSize::isEmpty]: either dimension below 1. *)
Definition isEmpty (s : t) : bool := (width s <? 1) || (height s <? 1).

End QSize.

Module Qt.

Inductive AspectRatioMode :=
| IgnoreAspectRatio | KeepAspectRatio | KeepAspectRatioByExpanding.

Inductive TransformationMode := FastTransformation | SmoothTransformation.

(** The [Qt.WindowStaysOnTopHint] window flag, bit 18. *)
Definition WindowStaysOnTopHint : Z := 0x00040000.

(** The [Qt.Window] flag every top-level window carries. *)
Definition Window : Z := 0x00000001.

(** [QSize::scaled(s, mode)] of the size [sz]: the toolkit computes the
    width that goes with the target height in 64-bit integers, with
    C++ division (both operands are non-negative here), and keeps
    whichever of the two candidate sizes the mode asks for. *)
Definition size_scaled (sz s : QSize.t) (mode : AspectRatioMode) : QSize.t :=
  match mode with
  | IgnoreAspectRatio => s
  | _ =>
      if (QSize.width sz =? 0) || (QSize.height sz =? 0) then s
      else
        let rw := Z.quot (QSize.height s * QSize.width sz) (QSize.height sz) in
        let useHeight :=
          match mode with
          | KeepAspectRatio => rw <=? QSize.width s
          | _ => rw >=? QSize.width s
          end in
        if useHeight then QSize.mk rw (QSize.height s)
        else QSize.mk (QSize.width s)
                      (Z.quot (QSize.width s * QSize.height sz) (QSize.width sz))
  end.

End Qt.

Module QPixmap.

(** The picture a pixmap holds, by how it was made: nothing, the
    decoding of some bytes, or another picture resampled to a size. *)
Inductive Pixels :=
| NoPixels
| FromData (data : list byte)
| Resampled (src : Pixels) (w h : Z) (mode : Qt.TransformationMode).

Record t := mk { width : Z; height : Z; pixels : Pixels }.

(** [QPixmap()]: the null pixmap, 0 by 0. *)
Definition null : t := mk 0 0 NoPixels.

Definition size (p : t) : QSize.t := QSize.mk (width p) (height p).

Definition isNull (p : t) : bool := (width p <=? 0) || (height p <=? 0).

(** [QPixmap::transformed] with the pure scaling that takes [p] to
    [newSize]. *)
Definition transformed (p : t) (newSize : QSize.t)
           (mode : Qt.TransformationMode) : t :=
  mk (QSize.width newSize) (QSize.height newSize)
     (Resampled (pixels p) (QSize.width newSize) (QSize.height newSize) mode).

(** [QPixmap::scaled(s, aspectMode, mode)]: a null pixmap for a null
    pixmap or an empty target; otherwise the size is scaled, neither
    dimension is let below 1, and the pixmap itself comes back when the
    size did not change. *)
Definition scaled (p : t) (s : QSize.t) (aspectMode : Qt.AspectRatioMode)
           (mode : Qt.TransformationMode) : t :=
  if isNull p then null
  else if QSize.isEmpty s then null
  else
    let newSize := Qt.size_scaled (size p) s aspectMode in
    let newSize := QSize.mk (Z.max (QSize.width newSize) 1)
                            (Z.max (QSize.height newSize) 1) in
    if QSize.eqb newSize (size p) then p
    else transformed p newSize mode.

End QPixmap.

Module QLabel.

(** A label shows nothing, a text or a pixmap; setting one replaces the
    other. *)
Inductive Content :=
| Blank
| Text (s : string)
| Picture (p : QPixmap.t).

Record t := mk { content : Content; size : QSize.t }.

Definition setText (s : string) (l : t) : t := mk (Text s) (size l).
Definition setPixmap (p : QPixmap.t) (l : t) : t := mk (Picture p) (size l).
Definition clear (l : t) : t := mk Blank (size l).

Definition pixmap (l : t) : option QPixmap.t :=
  match content l with Picture p => Some p | _ => None end.

Definition text (l : t) : string :=
  match content l with Text s => s | _ => "" end.

End QLabel.

(** A dropped URL: a file of the local file system, or anything else. *)
Module QUrl.

Inductive t :=
| File (path : string)
| Other (url : string).

(** [QUrl::toLocalFile]: the path of a local file, empty otherwise. *)
Definition toLocalFile (u : t) : string :=
  match u with File p => p | Other _ => "" end.

End QUrl.

(** The payload of a drag: whether it carries the URL-list format, and
    the URLs read out of it.  The format can be there with no URL in
    it. *)
Module QMimeData.

Record t := mk { hasUrls : bool; urls : list QUrl.t }.

End QMimeData.

(* ================================================================= *)
(** ** The HTTP library *)

Module requests.

Record Response := mkResponse {
  status_code : Z;
  reason : string;
  url : string;
  content : list byte
}.

(** [Response.raise_for_status()]: an [HTTPError] for a 4xx or 5xx
    status, nothing otherwise. *)
Definition raise_for_status {S} (r : Response) : Py.Stmt S unit :=
  if (400 <=? status_code r) && (status_code r <? 500) then
    Py.raise (Py.mkExn "HTTPError"
                (Py.str_int (status_code r) ++ " Client Error: "
                   ++ reason r ++ " for url: " ++ url r))
  else if (500 <=? status_code r) && (status_code r <? 600) then
    Py.raise (Py.mkExn "HTTPError"
                (Py.str_int (status_code r) ++ " Server Error: "
                   ++ reason r ++ " for url: " ++ url r))
  else Py.ret tt.

End requests.

(* ================================================================= *)
(** ** What lies outside the process *)

(** The network, the image readers, the file system and the clipboard, as
    the handlers meet them. *)
Record World := mkWorld {
  (** [requests.get(url)]: an exception (no connection, malformed URL, ...)
      or a response. *)
  http_get : string -> Py.Exn + requests.Response;
  (** The image readers: the dimensions of the picture some bytes hold,
      when they hold one. *)
  decode : list byte -> option (positive * positive);
  (** The bytes of a file, when it can be read. *)
  read_file : string -> option (list byte);
  (** [QGuiApplication.clipboard().text()]. *)
  clipboard_text : string
}.

(** [pixmap = QPixmap(); pixmap.loadFromData(data)]: the decoded picture,
    or the pixmap stays null (the call returns [False], it does not
    raise). *)
Definition loadFromData (w : World) (data : list byte) : QPixmap.t :=
  match decode w data with
  | Some (wd, ht) => QPixmap.mk (Z.pos wd) (Z.pos ht) (QPixmap.FromData data)
  | None => QPixmap.null
  end.

(** [QPixmap(file_path)]: the picture in the file, or a null pixmap when
    the file cannot be read or holds no picture. *)
Definition QPixmap_of_file (w : World) (file_path : string) : QPixmap.t :=
  match read_file w file_path with
  | Some data => loadFromData w data
  | None => QPixmap.null
  end.

(* ================================================================= *)
(** ** The viewer object *)

(** The attributes of [self] the handlers read or write, the state of the
    widgets behind them, and [http_requests], which records the URLs
    fetched so far (oldest first). *)
Record Viewer := mkViewer {
  url_input : string;
  image_label : QLabel.t;
  original_pixmap : option QPixmap.t;
  scaled_pixmap : option QPixmap.t;
  is_on_top : bool;
  toggle_top_button : string;
  opacity_slider : Z;
  opacity_label : string;
  windowFlags : Z;
  windowSize : QSize.t;
  windowOpacity : Q;
  isVisible : bool;
  http_requests : list string
}.

(** Assignment to one attribute. *)
Definition set_url_input (v : string) (s : Viewer) : Viewer :=
  mkViewer v (image_label s) (original_pixmap s) (scaled_pixmap s)
           (is_on_top s) (toggle_top_button s) (opacity_slider s)
           (opacity_label s) (windowFlags s) (windowSize s)
           (windowOpacity s) (isVisible s) (http_requests s).

Definition set_image_label (v : QLabel.t) (s : Viewer) : Viewer :=
  mkViewer (url_input s) v (original_pixmap s) (scaled_pixmap s)
           (is_on_top s) (toggle_top_button s) (opacity_slider s)
           (opacity_label s) (windowFlags s) (windowSize s)
           (windowOpacity s) (isVisible s) (http_requests s).

Definition set_original_pixmap (v : option QPixmap.t) (s : Viewer) : Viewer :=
  mkViewer (url_input s) (image_label s) v (scaled_pixmap s) (is_on_top s)
           (toggle_top_button s) (opacity_slider s) (opacity_label s)
           (windowFlags s) (windowSize s) (windowOpacity s) (isVisible s)
           (http_requests s).

Definition set_scaled_pixmap (v : option QPixmap.t) (s : Viewer) : Viewer :=
  mkViewer (url_input s) (image_label s) (original_pixmap s) v
           (is_on_top s) (toggle_top_button s) (opacity_slider s)
           (opacity_label s) (windowFlags s) (windowSize s)
           (windowOpacity s) (isVisible s) (http_requests s).

Definition set_is_on_top (v : bool) (s : Viewer) : Viewer :=
  mkViewer (url_input s) (image_label s) (original_pixmap s)
           (scaled_pixmap s) v (toggle_top_button s) (opacity_slider s)
           (opacity_label s) (windowFlags s) (windowSize s)
           (windowOpacity s) (isVisible s) (http_requests s).

Definition set_toggle_top_button (v : string) (s : Viewer) : Viewer :=
  mkViewer (url_input s) (image_label s) (original_pixmap s)
           (scaled_pixmap s) (is_on_top s) v (opacity_slider s)
           (opacity_label s) (windowFlags s) (windowSize s)
           (windowOpacity s) (isVisible s) (http_requests s).

Definition set_opacity_slider (v : Z) (s : Viewer) : Viewer :=
  mkViewer (url_input s) (image_label s) (original_pixmap s)
           (scaled_pixmap s) (is_on_top s) (toggle_top_button s) v
           (opacity_label s) (windowFlags s) (windowSize s)
           (windowOpacity s) (isVisible s) (http_requests s).

Definition set_opacity_label (v : string) (s : Viewer) : Viewer :=
  mkViewer (url_input s) (image_label s) (original_pixmap s)
           (scaled_pixmap s) (is_on_top s) (toggle_top_button s)
           (opacity_slider s) v (windowFlags s) (windowSize s)
           (windowOpacity s) (isVisible s) (http_requests s).

Definition set_windowFlags (v : Z) (s : Viewer) : Viewer :=
  mkViewer (url_input s) (image_label s) (original_pixmap s)
           (scaled_pixmap s) (is_on_top s) (toggle_top_button s)
           (opacity_slider s) (opacity_label s) v (windowSize s)
           (windowOpacity s) (isVisible s) (http_requests s).

Definition set_windowSize (v : QSize.t) (s : Viewer) : Viewer :=
  mkViewer (url_input s) (image_label s) (original_pixmap s)
           (scaled_pixmap s) (is_on_top s) (toggle_top_button s)
           (opacity_slider s) (opacity_label s) (windowFlags s) v
           (windowOpacity s) (isVisible s) (http_requests s).

Definition set_windowOpacity (v : Q) (s : Viewer) : Viewer :=
  mkViewer (url_input s) (image_label s) (original_pixmap s)
           (scaled_pixmap s) (is_on_top s) (toggle_top_button s)
           (opacity_slider s) (opacity_label s) (windowFlags s)
           (windowSize s) v (isVisible s) (http_requests s).

Definition set_isVisible (v : bool) (s : Viewer) : Viewer :=
  mkViewer (url_input s) (image_label s) (original_pixmap s)
           (scaled_pixmap s) (is_on_top s) (toggle_top_button s)
           (opacity_slider s) (opacity_label s) (windowFlags s)
           (windowSize s) (windowOpacity s) v (http_requests s).

Definition set_http_requests (v : list string) (s : Viewer) : Viewer :=
  mkViewer (url_input s) (image_label s) (original_pixmap s)
           (scaled_pixmap s) (is_on_top s) (toggle_top_button s)
           (opacity_slider s) (opacity_label s) (windowFlags s)
           (windowSize s) (windowOpacity s) (isVisible s) v.

(** *** Window methods inherited from the toolkit *)

(** [setWindowFlags]: changing the flags of a window hides it until it is
    shown again; setting the flags it already has does nothing. *)
Definition setWindowFlags (flags : Z) (self : Viewer) : Viewer :=
  if windowFlags self =? flags then self
  else set_isVisible false (set_windowFlags flags self).

Definition show (self : Viewer) : Viewer := set_isVisible true self.

(** [qBound(min, val, max)], as [qMax(min, qMin(max, val))]. *)
Definition qMin (a b : Q) : Q := if negb (Qle_bool b a) then a else b.

Definition qMax (a b : Q) : Q := if negb (Qle_bool b a) then b else a.

Definition qBound (min val max : Q) : Q := qMax min (qMin max val).

(** The opacity a window keeps of the level asked for: the level is
    brought into 0 to 1 and kept as the whole number [uint(level * 255)];
    [windowOpacity()] reads that number over 255. *)
Definition kept_opacity (level : Q) : Q :=
  let level := qBound 0 level 1 in
  Qred (Qfloor (level * 255) # 255).

(** [setWindowOpacity(level)]; the field [windowOpacity] is what
    [windowOpacity()] reads afterwards. *)
Definition setWindowOpacity (level : Q) (self : Viewer) : Viewer :=
  set_windowOpacity (kept_opacity level) self.

(** [requests.get(url)], which also leaves its mark in [http_requests]. *)
Definition requests_get (w : World) (url : string)
  : Py.Stmt Viewer requests.Response :=
  fun self =>
    let self := set_http_requests (http_requests self ++ [url])%list self in
    match http_get w url with
    | inl e => Py.Raised e self
    | inr r => Py.Returned r self
    end.

(** [self.image_label.setText(text)] and [self.image_label.setPixmap(p)]. *)
Definition image_label_setText (text : string) (self : Viewer) : Viewer :=
  set_image_label (QLabel.setText text (image_label self)) self.

Definition image_label_setPixmap (p : QPixmap.t) (self : Viewer) : Viewer :=
  set_image_label (QLabel.setPixmap p (image_label self)) self.

(** [value / 100.0]: true division of an [int] by a number; the float
    Python computes is taken for the exact quotient it is nearest to,
    kept as a fraction in lowest terms. *)
Definition truediv (a : Z) (b : Q) : Q := Qred (inject_Z a / b).

(** The same in the doubles the source computes with: [value / 100.0 *
    255], and whether [uint] of a double that is not negative is [n]. *)
Definition double_of (n : Z) : PrimFloat.float :=
  PrimFloat.of_uint63 (Uint63.of_Z n).

Definition double_level_255 (value : Z) : PrimFloat.float :=
  PrimFloat.mul (PrimFloat.div (double_of value) (double_of 100))
                (double_of 255).

Definition uint_is (x : PrimFloat.float) (n : Z) : bool :=
  PrimFloat.leb (double_of n) x && PrimFloat.ltb x (double_of (n + 1)).

(** The label the window shows while no picture is loaded. *)
Definition placeholder : string := "Drag and Drop an Image Here".

(* ================================================================= *)
(** ** [src/4ref.py] *)

Module FourRef.

(** [max_size = QSize(800, 800)] *)
Definition max_size : QSize.t := QSize.mk 800 800.

(** First half of [update_image]: the pixmap kept in
    [self.scaled_pixmap]. *)
Definition cap_stage (original_pixmap : QPixmap.t) : QPixmap.t :=
  if (QPixmap.width original_pixmap >? QSize.width max_size)
     || (QPixmap.height original_pixmap >? QSize.height max_size)
  then QPixmap.scaled original_pixmap max_size
                      Qt.KeepAspectRatio Qt.SmoothTransformation
  else original_pixmap.

(** Second half of [update_image]: the pixmap handed to the label. *)
Definition fit_stage (scaled_pixmap : QPixmap.t) (label_size : QSize.t)
  : QPixmap.t :=
  if (QSize.width label_size >? 0) && (QSize.height label_size >? 0)
  then QPixmap.scaled scaled_pixmap label_size
                      Qt.KeepAspectRatio Qt.SmoothTransformation
  else scaled_pixmap.

Definition update_image (self : Viewer) : Viewer :=
  match original_pixmap self with
  | None => self
  | Some original =>
      let scaled := cap_stage original in
      let self := set_scaled_pixmap (Some scaled) self in
      let label_size := QLabel.size (image_label self) in
      image_label_setPixmap (fit_stage scaled label_size) self
  end.

(** [resizeEvent]: by the time it runs the layout has given the label
    its new size. *)
Definition resizeEvent (self : Viewer) : Viewer := update_image self.

(** [self.resize(w, h)]: the window takes the size and the resize
    handler runs. *)
Definition resize (w h : Z) (self : Viewer) : Viewer :=
  resizeEvent (set_windowSize (QSize.mk w h) self).

Definition load_image_from_url (w : World) : Py.Stmt Viewer unit :=
  fun self =>
    let url := url_input self in
    Py.try_except
      (response <- requests_get w url ;;
       requests.raise_for_status response ;;;
       let img_data := requests.content response in
       let pixmap := loadFromData w img_data in
       Py.call (set_original_pixmap (Some pixmap)) ;;;
       Py.call update_image)
      (fun e =>
         Py.call (image_label_setText ("Error loading image: " ++ Py.str_exn e)))
      self.

Definition change_opacity (self : Viewer) : Viewer :=
  let value := opacity_slider self in
  let opacity := truediv value 100 in
  let self := setWindowOpacity opacity self in
  set_opacity_label ("Window Opacity: " ++ Py.str_int value ++ "%") self.

(** [self.opacity_slider.setValue(v)]: the slider keeps its value within
    its range, 10 to 100, and a change of value runs the connected
    [change_opacity]. *)
Definition opacity_slider_setValue (v : Z) (self : Viewer) : Viewer :=
  let v := Z.max 10 (Z.min 100 v) in
  if v =? opacity_slider self then self
  else change_opacity (set_opacity_slider v self).

Definition toggle_on_top (self : Viewer) : Viewer :=
  let self :=
    if is_on_top self then
      let self :=
        setWindowFlags
          (Z.land (windowFlags self) (Z.lnot Qt.WindowStaysOnTopHint)) self in
      set_toggle_top_button "Toggle Always-on-Top (OFF)" self
    else
      let self :=
        setWindowFlags
          (Z.lor (windowFlags self) Qt.WindowStaysOnTopHint) self in
      set_toggle_top_button "Toggle Always-on-Top (ON)" self in
  let self := set_is_on_top (negb (is_on_top self)) self in
  show self.

Definition auto_fetch_url_from_clipboard (w : World) : Py.Stmt Viewer unit :=
  fun self =>
    let url := clipboard_text w in
    if existsb (fun ext => Py.endswith (Py.lower url) ext)
               [".png"; ".jpg"; ".jpeg"; ".gif"; ".svg"]
    then (Py.call (set_url_input url) ;;; load_image_from_url w) self
    else Py.ret tt self.

Definition reset_app (self : Viewer) : Viewer :=
  let self := set_url_input "" self in
  let self := set_image_label (QLabel.clear (image_label self)) self in
  let self := image_label_setText placeholder self in
  let self := set_original_pixmap None self in
  let self := set_scaled_pixmap None self in
  let self :=
    setWindowFlags
      (Z.land (windowFlags self) (Z.lnot Qt.WindowStaysOnTopHint)) self in
  let self := resize 480 360 self in
  let self := set_is_on_top false self in
  let self := setWindowOpacity 1 self in
  let self := opacity_slider_setValue 100 self in
  let self := set_opacity_label "Window Opacity: 100%" self in
  show self.

(** [dragEnterEvent]: whether the drag is accepted. *)
Definition dragEnterEvent (mimeData : QMimeData.t) : bool :=
  if QMimeData.hasUrls mimeData then true else false.

Definition dropEvent (w : World) (urls : list QUrl.t) : Py.Stmt Viewer unit :=
  u <- Py.index0 urls ;;
  let file_path := QUrl.toLocalFile u in
  let pixmap := QPixmap_of_file w file_path in
  Py.call (set_original_pixmap (Some pixmap)) ;;;
  Py.call update_image.

(** The object [__init__] has built when it reaches its last line;
    [area] is the size of the image label at that moment. *)
Definition constructed (area : QSize.t) : Viewer :=
  mkViewer "" (QLabel.mk (QLabel.Text placeholder) area)
           None None false "Toggle Always-on-Top"
           100 "Window Opacity: 100%"
           Qt.Window (QSize.mk 480 360) 1 false [].

Definition __init__ (w : World) (area : QSize.t) : Py.outcome Viewer unit :=
  auto_fetch_url_from_clipboard w (constructed area).

End FourRef.

(* ================================================================= *)
(** ** [src/Ref.py] *)

Module Ref.

(** [max_size = QSize(800, 800)] *)
Definition max_size : QSize.t := QSize.mk 800 800.

(** First half of [update_image]: the pixmap kept in
    [self.scaled_pixmap]. *)
Definition cap_stage (original_pixmap : QPixmap.t) : QPixmap.t :=
  if (QPixmap.width original_pixmap >? QSize.width max_size)
     || (QPixmap.height original_pixmap >? QSize.height max_size)
  then QPixmap.scaled original_pixmap max_size
                      Qt.KeepAspectRatio Qt.SmoothTransformation
  else original_pixmap.

(** Second half of [update_image]: the pixmap handed to the label. *)
Definition fit_stage (scaled_pixmap : QPixmap.t) (label_size : QSize.t)
  : QPixmap.t :=
  if (QSize.width label_size >? 0) && (QSize.height label_size >? 0)
  then QPixmap.scaled scaled_pixmap label_size
                      Qt.KeepAspectRatio Qt.SmoothTransformation
  else scaled_pixmap.

Definition update_image (self : Viewer) : Viewer :=
  match original_pixmap self with
  | None => self
  | Some original =>
      let scaled := cap_stage original in
      let self := set_scaled_pixmap (Some scaled) self in
      let label_size := QLabel.size (image_label self) in
      image_label_setPixmap (fit_stage scaled label_size) self
  end.

(** [resizeEvent]: by the time it runs the layout has given the label
    its new size. *)
Definition resizeEvent (self : Viewer) : Viewer := update_image self.

(** [self.resize(w, h)]: the window takes the size and the resize
    handler runs. *)
Definition resize (w h : Z) (self : Viewer) : Viewer :=
  resizeEvent (set_windowSize (QSize.mk w h) self).

Definition load_image_from_url (w : World) : Py.Stmt Viewer unit :=
  fun self =>
    let url := url_input self in
    Py.try_except
      (response <- requests_get w url ;;
       requests.raise_for_status response ;;;
       let img_data := requests.content response in
       let pixmap := loadFromData w img_data in
       Py.call (set_original_pixmap (Some pixmap)) ;;;
       Py.call update_image)
      (fun e =>
         Py.call (image_label_setText ("Error loading image: " ++ Py.str_exn e)))
      self.

Definition change_opacity (self : Viewer) : Viewer :=
  let value := opacity_slider self in
  let opacity := truediv value 100 in
  let self := setWindowOpacity opacity self in
  set_opacity_label ("Window Opacity: " ++ Py.str_int value ++ "%") self.

(** [self.opacity_slider.setValue(v)]: the slider keeps its value within
    its range, 10 to 100, and a change of value runs the connected
    [change_opacity]. *)
Definition opacity_slider_setValue (v : Z) (self : Viewer) : Viewer :=
  let v := Z.max 10 (Z.min 100 v) in
  if v =? opacity_slider self then self
  else change_opacity (set_opacity_slider v self).

Definition toggle_on_top (self : Viewer) : Viewer :=
  let self :=
    if is_on_top self then
      let self :=
        setWindowFlags
          (Z.land (windowFlags self) (Z.lnot Qt.WindowStaysOnTopHint)) self in
      set_toggle_top_button "Toggle Always-on-Top (OFF)" self
    else
      let self :=
        setWindowFlags
          (Z.lor (windowFlags self) Qt.WindowStaysOnTopHint) self in
      set_toggle_top_button "Toggle Always-on-Top (ON)" self in
  let self := set_is_on_top (negb (is_on_top self)) self in
  show self.

Definition auto_fetch_url_from_clipboard (w : World) : Py.Stmt Viewer unit :=
  fun self =>
    let url := clipboard_text w in
    if existsb (fun ext => Py.endswith (Py.lower url) ext)
               [".png"; ".jpg"; ".jpeg"; ".gif"; ".svg"]
    then (Py.call (set_url_input url) ;;; load_image_from_url w) self
    else Py.ret tt self.

Definition reset_app (self : Viewer) : Viewer :=
  let self := set_url_input "" self in
  let self := set_image_label (QLabel.clear (image_label self)) self in
  let self := image_label_setText placeholder self in
  let self := set_original_pixmap None self in
  let self := set_scaled_pixmap None self in
  let self :=
    setWindowFlags
      (Z.land (windowFlags self) (Z.lnot Qt.WindowStaysOnTopHint)) self in
  let self := resize 400 300 self in
  let self := set_is_on_top false self in
  let self := setWindowOpacity 1 self in
  let self := opacity_slider_setValue 100 self in
  let self := set_opacity_label "Window Opacity: 100%" self in
  show self.

(** [dragEnterEvent]: whether the drag is accepted. *)
Definition dragEnterEvent (mimeData : QMimeData.t) : bool :=
  if QMimeData.hasUrls mimeData then true else false.

Definition dropEvent (w : World) (urls : list QUrl.t) : Py.Stmt Viewer unit :=
  u <- Py.index0 urls ;;
  let file_path := QUrl.toLocalFile u in
  let pixmap := QPixmap_of_file w file_path in
  Py.call (set_original_pixmap (Some pixmap)) ;;;
  Py.call update_image.

(** The object [__init__] has built when it reaches its last line;
    [area] is the size of the image label at that moment. *)
Definition constructed (area : QSize.t) : Viewer :=
  mkViewer "" (QLabel.mk (QLabel.Text placeholder) area)
           None None false "Toggle Always-on-Top"
           100 "Window Opacity: 100%"
           Qt.Window (QSize.mk 400 300) 1 false [].

Definition __init__ (w : World) (area : QSize.t) : Py.outcome Viewer unit :=
  auto_fetch_url_from_clipboard w (constructed area).

End Ref.

(* ================================================================= *)
(** ** The toolkit's side of the events *)

(** A resize of the window: the layout gives the window and the image
    label their new sizes, then the [resizeEvent] of the viewer runs. *)
Definition layout_resized (window area : QSize.t) (self : Viewer) : Viewer :=
  set_image_label (QLabel.mk (QLabel.content (image_label self)) area)
                  (set_windowSize window self).

(** A drag released over the window: the drop reaches [dropEvent] only
    if [dragEnterEvent] accepted the drag. *)
Definition drag_and_drop (w : World) (mimeData : QMimeData.t)
  : Py.Stmt Viewer unit :=
  fun self =>
    if FourRef.dragEnterEvent mimeData
    then FourRef.dropEvent w (QMimeData.urls mimeData) self
    else Py.ret tt self.

(** What the user and the window system can do to the viewer of
    [src/4ref.py], and the handler each event ends in.  [handle] gives
    the viewer as the handler leaves it, whether it returns or raises. *)
Inductive Event :=
| LoadClicked (url : string)
| Dropped (mimeData : QMimeData.t)
| Resized (window area : QSize.t)
| SliderMoved (v : Z)
| ToggleClicked
| ResetClicked.

Definition handle (w : World) (e : Event) (self : Viewer) : Viewer :=
  match e with
  | LoadClicked url =>
      Py.state_of (FourRef.load_image_from_url w (set_url_input url self))
  | Dropped mimeData => Py.state_of (drag_and_drop w mimeData self)
  | Resized window area =>
      FourRef.resizeEvent (layout_resized window area self)
  | SliderMoved v => FourRef.opacity_slider_setValue v self
  | ToggleClicked => FourRef.toggle_on_top self
  | ResetClicked => FourRef.reset_app self
  end.

(** A run: events one after the other, each in the world of its
    moment. *)
Fixpoint run (events : list (World * Event)) (self : Viewer) : Viewer :=
  match events with
  | [] => self
  | (w, e) :: rest => run rest (handle w e self)
  end.

(** The viewer as it stands when [__init__] returns. *)
Definition started (w : World) (area : QSize.t) : Viewer :=
  Py.state_of (FourRef.__init__ w area).

(** What the fetch in [load_image_from_url] comes to: the exception of
    [requests.get] or of [raise_for_status], or the body received. *)
Definition fetch (w : World) (url : string) : Py.Exn + list byte :=
  match http_get w url with
  | inl e => inl e
  | inr r =>
      match requests.raise_for_status r tt with
      | Py.Raised e _ => inl e
      | Py.Returned _ _ => inr (requests.content r)
      end
  end.

(** [self] once [requests.get] has been called on the text of the URL
    field. *)
Definition requested (self : Viewer) : Viewer :=
  set_http_requests (http_requests self ++ [url_input self])%list self.

(* ================================================================= *)
(** ** The display state of the specification *)

(** The pixmap on display ("fit") and the area it is shown in. *)
Definition fit (s : Viewer) : option QPixmap.t := QLabel.pixmap (image_label s).

Definition displayArea (s : Viewer) : QSize.t := QLabel.size (image_label s).

(** [r] fills the box in one direction and is, in the other, within one
    pixel of what the proportions of [p] ask for: the proportions of [p]
    as nearly as whole pixels allow. *)
Definition fitted (box : QSize.t) (p r : QPixmap.t) : Prop :=
  (QPixmap.width r = QSize.width box /\
   Z.abs (QPixmap.height r * QPixmap.width p
          - QPixmap.height p * QPixmap.width r) < QPixmap.width p)
  \/
  (QPixmap.height r = QSize.height box /\
   Z.abs (QPixmap.width r * QPixmap.height p
          - QPixmap.width p * QPixmap.height r) < QPixmap.height p).

(** What is asked of a cap stage at the pixmap [p]. *)
Definition cap_stage_meets (cap : QPixmap.t -> QPixmap.t) (p : QPixmap.t) : Prop :=
  (QPixmap.width p <= 800 /\ QPixmap.height p <= 800 -> cap p = p)
  /\
  (QPixmap.width p > 800 \/ QPixmap.height p > 800 ->
   QPixmap.width (cap p) <= 800 /\ QPixmap.height (cap p) <= 800
   /\ fitted (QSize.mk 800 800) p (cap p)
   /\ QPixmap.width (cap p) <= QPixmap.width p
   /\ QPixmap.height (cap p) <= QPixmap.height p).

(** What is asked of a fit stage at the capped pixmap [c] and the display
    area [area]. *)
Definition fit_stage_meets (fit_of : QPixmap.t -> QSize.t -> QPixmap.t)
           (c : QPixmap.t) (area : QSize.t) : Prop :=
  (QSize.width area > 0 /\ QSize.height area > 0 ->
   QPixmap.width (fit_of c area) <= QSize.width area
   /\ QPixmap.height (fit_of c area) <= QSize.height area
   /\ fitted area c (fit_of c area))
  /\
  (QSize.width area = 0 \/ QSize.height area = 0 -> fit_of c area = c).

(** The invariant as the specification words it: a picture on display
    exactly when one is stored, and never larger than the cap or than the
    display area. *)
Definition claimed_invariant (s : Viewer) : Prop :=
  (fit s <> None <-> original_pixmap s <> None)
  /\
  forall f, fit s = Some f ->
    QPixmap.width f <= 800 /\ QPixmap.height f <= 800
    /\ QPixmap.width f <= QSize.width (displayArea s)
    /\ QPixmap.height f <= QSize.height (displayArea s).

(** The bounds the handlers keep a displayed pixmap in: the display area
    when that has two positive dimensions, the cap otherwise. *)
Definition within_bounds (area : QSize.t) (f : QPixmap.t) : Prop :=
  (QSize.width area > 0 /\ QSize.height area > 0 ->
   QPixmap.width f <= QSize.width area /\ QPixmap.height f <= QSize.height area)
  /\
  (~ (QSize.width area > 0 /\ QSize.height area > 0) ->
   QPixmap.width f <= 800 /\ QPixmap.height f <= 800).

(** The invariant the handlers keep: a picture on display exactly when one
    is stored, and within those bounds. *)
Definition display_invariant (s : Viewer) : Prop :=
  (fit s <> None <-> original_pixmap s <> None)
  /\
  forall f, fit s = Some f -> within_bounds (displayArea s) f.

(** What survives a failed load as well: a picture on display only when
    one is stored, and within those bounds. *)
Definition shown_within (s : Viewer) : Prop :=
  (fit s <> None -> original_pixmap s <> None)
  /\
  forall f, fit s = Some f -> within_bounds (displayArea s) f.

(** The suffixes the clipboard text is tested for, and the test in
    words: the lowered text ends with one of them. *)
Definition image_suffixes : list string :=
  [".png"; ".jpg"; ".jpeg"; ".gif"; ".svg"].

Definition looks_like_image (text : string) : Prop :=
  exists ext prefix,
    In ext image_suffixes /\ Py.lower text = prefix ++ ext.

(** The part of the viewer that [Reset] is about. *)
Record DisplayState := mkDisplayState {
  ds_url : string;
  ds_original : option QPixmap.t;
  ds_capped : option QPixmap.t;
  ds_shown : QLabel.Content;
  ds_alwaysOnTop : bool;
  ds_staysOnTopHint : bool;
  ds_opacity : Q;
  ds_slider : Z;
  ds_opacity_label : string;
  ds_window : QSize.t
}.

Definition display_state (s : Viewer) : DisplayState :=
  mkDisplayState (url_input s) (original_pixmap s) (scaled_pixmap s)
                 (QLabel.content (image_label s))
                 (is_on_top s) (Z.testbit (windowFlags s) 18)
                 (windowOpacity s) (opacity_slider s) (opacity_label s)
                 (windowSize s).

(* ================================================================= *)
(** ** Concrete pictures, worlds and viewers *)

Definition some_bytes : list byte := [x89; x50; x4e; x47].

Definition picture (w h : Z) : QPixmap.t :=
  QPixmap.mk w h (QPixmap.FromData some_bytes).

(** A world whose server answers 200 with a [w] by [h] picture. *)
Definition serving (w h : positive) : World :=
  mkWorld (fun u => inr (requests.mkResponse 200 "OK" u some_bytes))
          (fun _ => Some (w, h))
          (fun _ => None)
          "".

(** A world whose server answers 404. *)
Definition not_found : World :=
  mkWorld (fun u => inr (requests.mkResponse 404 "Not Found" u []))
          (fun _ => None)
          (fun _ => None)
          "".

(** A world whose server answers 200 with bytes that are no picture, and
    whose files cannot be read. *)
Definition garbage : World :=
  mkWorld (fun u => inr (requests.mkResponse 200 "OK" u [x6f; x6f; x70; x73]))
          (fun _ => None)
          (fun _ => None)
          "".

Definition a_url : string := "http://example.org/a.png".

(** The freshly built viewer of [src/4ref.py] and of [src/Ref.py], its
    image label of size [area], with a URL typed into the field. *)
Definition fresh_4ref (area : QSize.t) : Viewer :=
  set_url_input a_url (FourRef.constructed area).

Definition fresh_Ref (area : QSize.t) : Viewer :=
  set_url_input a_url (Ref.constructed area).

(** The same viewers once they show a 100 by 50 picture in a 400 by 300
    area. *)
Definition showing_4ref : Viewer :=
  Py.state_of
    (FourRef.load_image_from_url (serving 100 50) (fresh_4ref (QSize.mk 400 300))).

Definition showing_Ref : Viewer :=
  Py.state_of
    (Ref.load_image_from_url (serving 100 50) (fresh_Ref (QSize.mk 400 300))).

Definition missing_file : QUrl.t := QUrl.File "/tmp/missing.png".

(** A world with [text] on the clipboard and a server that answers 404. *)
Definition clipboard_holding (text : string) : World :=
  mkWorld (http_get not_found) (decode not_found) (read_file not_found) text.

(* ================================================================= *)
(** ** What the handlers keep, in words *)

(** The window controls: always-on-top, opacity, visibility, the slider
    and the captions that go with them. *)
Definition same_controls (s s' : Viewer) : Prop :=
  is_on_top s' = is_on_top s /\
  windowFlags s' = windowFlags s /\
  isVisible s' = isVisible s /\
  toggle_top_button s' = toggle_top_button s /\
  opacity_slider s' = opacity_slider s /\
  windowOpacity s' = windowOpacity s /\
  opacity_label s' = opacity_label s.

(** The picture side: the URL field, the image label, the two pixmaps,
    the window size and the requests made. *)
Definition same_pictures (s s' : Viewer) : Prop :=
  url_input s' = url_input s /\
  image_label s' = image_label s /\
  original_pixmap s' = original_pixmap s /\
  scaled_pixmap s' = scaled_pixmap s /\
  windowSize s' = windowSize s /\
  http_requests s' = http_requests s.

(** The attribute [is_on_top] and the window flag say the same. *)
Definition on_top_in_sync (s : Viewer) : Prop :=
  Z.testbit (windowFlags s) 18 = is_on_top s.

(** The slider is within its range, the window opacity is the one the
    window keeps of the slider's value over 100, in 255ths and rounded
    down, and the opacity label shows the slider's value. *)
Definition opacity_in_sync (s : Viewer) : Prop :=
  10 <= opacity_slider s <= 100 /\
  (windowOpacity s == (255 * opacity_slider s / 100) # 255)%Q /\
  opacity_label s
  = "Window Opacity: " ++ Py.str_int (opacity_slider s) ++ "%".

(** The capped pixmap is the cap stage of the stored one, and a pixmap on
    display is the fit stage of that for the display area as it is. *)
Definition derived (s : Viewer) : Prop :=
  scaled_pixmap s = option_map FourRef.cap_stage (original_pixmap s) /\
  forall f, fit s = Some f ->
    exists o, original_pixmap s = Some o /\
              f = FourRef.fit_stage (FourRef.cap_stage o) (displayArea s).

(** The URLs of the load clicks of a run, in order. *)
Fixpoint loads_of (events : list (World * Event)) : list string :=
  match events with
  | [] => []
  | (_, LoadClicked url) :: rest => url :: loads_of rest
  | _ :: rest => loads_of rest
  end.

(* ================================================================= *)
(** ** The font stage of [__init__] in [src/4ref.py] *)

Module QFont.

Record t := mk { family : string; pointSize : Z }.

End QFont.

(** What the font stage asks of the interpreter, the file system and the
    font database. *)
Record Host := mkHost {
  (** [sys._MEIPASS], when [sys] has the attribute. *)
  meipass : option string;
  (** [os.path.abspath(".")]. *)
  abspath_dot : string;
  (** [os.path.join] of two components. *)
  path_join : string -> string -> string;
  (** [os.path.exists]. *)
  path_exists : string -> bool;
  (** [QFontDatabase.addApplicationFont]: the id of the font, or -1. *)
  addApplicationFont : string -> Z;
  (** [QFontDatabase.applicationFontFamilies]. *)
  applicationFontFamilies : Z -> list string
}.

(** The application font, once one is set, and what was printed. *)
Record Process := mkProcess {
  application_font : option QFont.t;
  stdout : list string
}.

Definition print (line : string) (p : Process) : Process :=
  mkProcess (application_font p) (stdout p ++ [line])%list.

Definition QApplication_setFont (font : QFont.t) (p : Process) : Process :=
  mkProcess (Some font) (stdout p).

(** Lines 20 to 43 of [src/4ref.py]; the value is [base_path], which the
    rest of [__init__] builds the image paths from. *)
Definition init_font (h : Host) : Py.Stmt Process string :=
  let base_path :=
    match meipass h with
    | Some dir => dir
    | None => abspath_dot h
    end in
  let font_path := path_join h base_path "TMT-Paint-Regular.otf" in
  (if path_exists h font_path then
     let font_id := addApplicationFont h font_path in
     if font_id =? -1 then
       Py.call (print ("Failed to load the font from " ++ font_path ++ ".")) ;;;
       let font := QFont.mk "TMT Paint" 14 in
       Py.call (QApplication_setFont font)
     else
       font_family <- Py.index0 (applicationFontFamilies h font_id) ;;
       let font := QFont.mk font_family 14 in
       Py.call (QApplication_setFont font)
   else
     Py.call (print ("Font file not found at " ++ font_path ++ ".")) ;;;
     let font := QFont.mk "TMT Paint" 14 in
     Py.call (QApplication_setFont font)) ;;;
  Py.ret base_path.

(** A host with the font file in place, and one without. *)
Definition host_with_font : Host :=
  mkHost None "/opt/4ref" (fun a b => a ++ "/" ++ b) (fun _ => true)
         (fun _ => 0) (fun _ => ["TMT Paint"]).

Definition host_without_font : Host :=
  mkHost None "/opt/4ref" (fun a b => a ++ "/" ++ b) (fun _ => false)
         (fun _ => -1) (fun _ => []).

(* ================================================================= *)
(** ** The two variants agree *)

Lemma Ref_cap_stage : Ref.cap_stage = FourRef.cap_stage.
Proof. reflexivity. Qed.

Lemma Ref_fit_stage : Ref.fit_stage = FourRef.fit_stage.
Proof. reflexivity. Qed.

Lemma Ref_update_image : Ref.update_image = FourRef.update_image.
Proof. reflexivity. Qed.

Lemma Ref_load_image_from_url :
  Ref.load_image_from_url = FourRef.load_image_from_url.
Proof. reflexivity. Qed.

Lemma Ref_dropEvent : Ref.dropEvent = FourRef.dropEvent.
Proof. reflexivity. Qed.

Lemma Ref_change_opacity : Ref.change_opacity = FourRef.change_opacity.
Proof. reflexivity. Qed.

Lemma Ref_auto_fetch_url_from_clipboard :
  Ref.auto_fetch_url_from_clipboard = FourRef.auto_fetch_url_from_clipboard.
Proof. reflexivity. Qed.

(* ================================================================= *)
(** ** Scaling a size into a box *)

Lemma quot_bounds (a b : Z) :
  0 <= a -> 0 < b -> b * (a ÷ b) <= a < b * (a ÷ b + 1).
Proof.
  intros Ha Hb. rewrite Z.quot_div_nonneg by lia. split.
  - apply Z.mul_div_le; lia.
  - replace (b * (a / b + 1)) with (b * Z.succ (a / b)) by lia.
    apply Z.mul_succ_div_gt; lia.
Qed.

Ltac positive_size :=
  cbn [QSize.width QSize.height];
  repeat match goal with
         | |- context [?x =? 0] =>
             replace (x =? 0) with false by (symmetry; apply Z.eqb_neq; lia)
         end;
  cbn [orb].

(** Inside the box, filling it one way, a pixel at most off the other
    way. *)
Lemma size_scaled_keep (w h W H : Z) :
  1 <= w -> 1 <= h -> 1 <= W -> 1 <= H ->
  let r := Qt.size_scaled (QSize.mk w h) (QSize.mk W H) Qt.KeepAspectRatio in
  let w' := Z.max (QSize.width r) 1 in
  let h' := Z.max (QSize.height r) 1 in
  1 <= w' <= W /\ 1 <= h' <= H /\
  ((w' = W /\ Z.abs (h' * w - h * w') < w) \/
   (h' = H /\ Z.abs (w' * h - w * h') < h)).
Proof.
  intros Hw Hh HW HH. unfold Qt.size_scaled. positive_size.
  pose proof (quot_bounds (H * w) h ltac:(nia) ltac:(lia)) as Q1.
  pose proof (quot_bounds (W * h) w ltac:(nia) ltac:(lia)) as Q2.
  set (q1 := (H * w) ÷ h) in *. set (q2 := (W * h) ÷ w) in *.
  destruct (Z.leb_spec q1 W) as [L|L]; cbn [QSize.width QSize.height].
  - assert (0 <= q1) by nia.
    split; [lia|]. split; [lia|]. right. split; [lia|].
    destruct (Z.max_spec q1 1) as [[? ->]|[? ->]];
      rewrite Z.max_l by lia; apply Z.abs_lt; nia.
  - assert (0 <= q2) by nia. assert (q2 < H) by nia.
    split; [lia|]. split; [lia|]. left. split; [lia|].
    destruct (Z.max_spec q2 1) as [[? ->]|[? ->]];
      rewrite Z.max_l by lia; apply Z.abs_lt; nia.
Qed.

(** Into the 800 by 800 box a size that sticks out of it only shrinks. *)
Lemma size_scaled_cap_shrinks (w h : Z) :
  1 <= w -> 1 <= h -> w > 800 \/ h > 800 ->
  let r := Qt.size_scaled (QSize.mk w h) (QSize.mk 800 800) Qt.KeepAspectRatio in
  Z.max (QSize.width r) 1 <= w /\ Z.max (QSize.height r) 1 <= h.
Proof.
  intros Hw Hh Hbig. unfold Qt.size_scaled. positive_size.
  pose proof (quot_bounds (800 * w) h ltac:(nia) ltac:(lia)) as Q1.
  pose proof (quot_bounds (800 * h) w ltac:(nia) ltac:(lia)) as Q2.
  set (q1 := (800 * w) ÷ h) in *. set (q2 := (800 * h) ÷ w) in *.
  destruct (Z.leb_spec q1 800) as [L|L]; cbn [QSize.width QSize.height].
  - assert (800 < h) by nia. assert (q1 < w) by nia. lia.
  - assert (800 < w) by nia. assert (q2 <= h) by nia. lia.
Qed.

(* ================================================================= *)
(** ** [QPixmap.scaled] *)

Lemma isNull_false (p : QPixmap.t) :
  QPixmap.isNull p = false <-> 1 <= QPixmap.width p /\ 1 <= QPixmap.height p.
Proof.
  unfold QPixmap.isNull. rewrite orb_false_iff, !Z.leb_gt. lia.
Qed.

Lemma isEmpty_false (s : QSize.t) :
  QSize.isEmpty s = false <-> 1 <= QSize.width s /\ 1 <= QSize.height s.
Proof.
  unfold QSize.isEmpty. rewrite orb_false_iff, !Z.ltb_ge. tauto.
Qed.

Lemma QSize_eqb_eq (a b : QSize.t) : QSize.eqb a b = true -> a = b.
Proof.
  destruct a, b. unfold QSize.eqb. cbn [QSize.width QSize.height].
  rewrite andb_true_iff, !Z.eqb_eq. intros [-> ->]. reflexivity.
Qed.

(** The size of a scaled pixmap is the scaled size, no dimension below 1. *)
Lemma scaled_size (p : QPixmap.t) (s : QSize.t) a m :
  QPixmap.isNull p = false -> QSize.isEmpty s = false ->
  let r := Qt.size_scaled (QPixmap.size p) s a in
  QPixmap.width (QPixmap.scaled p s a m) = Z.max (QSize.width r) 1 /\
  QPixmap.height (QPixmap.scaled p s a m) = Z.max (QSize.height r) 1.
Proof.
  intros Hp Hs. unfold QPixmap.scaled. rewrite Hp, Hs. cbv zeta.
  destruct (QSize.eqb _ (QPixmap.size p)) eqn:E.
  - apply QSize_eqb_eq in E.
    split; [apply (f_equal QSize.width) in E | apply (f_equal QSize.height) in E];
      cbn [QSize.width QSize.height QPixmap.size] in E; symmetry; exact E.
  - split; reflexivity.
Qed.

Lemma scaled_null (p : QPixmap.t) (s : QSize.t) a m :
  QPixmap.isNull p = true -> QPixmap.scaled p s a m = QPixmap.null.
Proof. intros Hp. unfold QPixmap.scaled. now rewrite Hp. Qed.

(** A non-null pixmap scaled into a box with room in it. *)
Lemma scaled_keep (p : QPixmap.t) (s : QSize.t) m :
  QPixmap.isNull p = false -> QSize.isEmpty s = false ->
  let r := QPixmap.scaled p s Qt.KeepAspectRatio m in
  1 <= QPixmap.width r <= QSize.width s /\
  1 <= QPixmap.height r <= QSize.height s /\
  fitted s p r.
Proof.
  intros Hp Hs.
  destruct (scaled_size p s Qt.KeepAspectRatio m Hp Hs) as [Ew Eh].
  apply isNull_false in Hp. apply isEmpty_false in Hs.
  destruct s as [W H]. cbn [QSize.width QSize.height] in *.
  pose proof (size_scaled_keep (QPixmap.width p) (QPixmap.height p) W H
                ltac:(lia) ltac:(lia) ltac:(lia) ltac:(lia)) as K.
  cbv zeta in K. unfold QPixmap.size in Ew, Eh. cbv zeta.
  unfold fitted. cbn [QSize.width QSize.height].
  rewrite Ew, Eh. exact K.
Qed.

(** Any pixmap scaled into a box with room in it stays within the box. *)
Lemma scaled_within (p : QPixmap.t) (s : QSize.t) m :
  QSize.isEmpty s = false ->
  QPixmap.width (QPixmap.scaled p s Qt.KeepAspectRatio m) <= QSize.width s /\
  QPixmap.height (QPixmap.scaled p s Qt.KeepAspectRatio m) <= QSize.height s.
Proof.
  intros Hs. destruct (QPixmap.isNull p) eqn:Hp.
  - rewrite scaled_null by assumption. apply isEmpty_false in Hs.
    cbn [QPixmap.null QPixmap.width QPixmap.height]. lia.
  - pose proof (scaled_keep p s m Hp Hs) as K. cbv zeta in K. lia.
Qed.

(* ================================================================= *)
(** ** The two stages of [update_image] *)

Lemma cap_stage_small (p : QPixmap.t) :
  QPixmap.width p <= 800 -> QPixmap.height p <= 800 -> FourRef.cap_stage p = p.
Proof.
  intros Hw Hh. unfold FourRef.cap_stage, FourRef.max_size.
  cbn [QSize.width QSize.height].
  destruct (Z.gtb_spec (QPixmap.width p) 800); [lia|].
  destruct (Z.gtb_spec (QPixmap.height p) 800); [lia|]. reflexivity.
Qed.

Lemma cap_stage_large (p : QPixmap.t) :
  QPixmap.width p > 800 \/ QPixmap.height p > 800 ->
  FourRef.cap_stage p =
  QPixmap.scaled p (QSize.mk 800 800) Qt.KeepAspectRatio Qt.SmoothTransformation.
Proof.
  intros Hbig. unfold FourRef.cap_stage, FourRef.max_size.
  cbn [QSize.width QSize.height].
  destruct (Z.gtb_spec (QPixmap.width p) 800); [reflexivity|].
  destruct (Z.gtb_spec (QPixmap.height p) 800); [reflexivity|]. lia.
Qed.

(** Whatever the pixmap, what the cap stage keeps is within the cap. *)
Lemma cap_stage_within (p : QPixmap.t) :
  QPixmap.width (FourRef.cap_stage p) <= 800 /\
  QPixmap.height (FourRef.cap_stage p) <= 800.
Proof.
  destruct (Z.gtb_spec (QPixmap.width p) 800) as [Hw|Hw];
    [|destruct (Z.gtb_spec (QPixmap.height p) 800) as [Hh|Hh]].
  3: { rewrite cap_stage_small by lia. lia. }
  all: rewrite cap_stage_large by lia;
    apply (scaled_within p (QSize.mk 800 800)); reflexivity.
Qed.

Lemma fit_stage_room (c : QPixmap.t) (area : QSize.t) :
  QSize.width area > 0 -> QSize.height area > 0 ->
  FourRef.fit_stage c area =
  QPixmap.scaled c area Qt.KeepAspectRatio Qt.SmoothTransformation.
Proof.
  intros Hw Hh. unfold FourRef.fit_stage.
  destruct (Z.gtb_spec (QSize.width area) 0); [|lia].
  destruct (Z.gtb_spec (QSize.height area) 0); [|lia]. reflexivity.
Qed.

Lemma fit_stage_no_room (c : QPixmap.t) (area : QSize.t) :
  ~ (QSize.width area > 0 /\ QSize.height area > 0) ->
  FourRef.fit_stage c area = c.
Proof.
  intros H. unfold FourRef.fit_stage.
  destruct (Z.gtb_spec (QSize.width area) 0);
    destruct (Z.gtb_spec (QSize.height area) 0); cbn [andb];
    try reflexivity. lia.
Qed.

(** C1.  Cap stage: a non-null pixmap no wider and no taller than 800
    comes back as it is; one that is wider or taller comes back within
    800 by 800, filling that box one way and a pixel at most off its own
    proportions the other way, and no larger than it was.  (Both
    variants.) *)
Theorem cap_stage_spec (p : QPixmap.t) :
  QPixmap.isNull p = false ->
  cap_stage_meets FourRef.cap_stage p /\ cap_stage_meets Ref.cap_stage p.
Proof.
  intros Hp. rewrite Ref_cap_stage.
  enough (cap_stage_meets FourRef.cap_stage p) by (split; assumption).
  split.
  - intros [Hw Hh]. now apply cap_stage_small.
  - intros Hbig. rewrite cap_stage_large by assumption.
    pose proof (scaled_keep p (QSize.mk 800 800) Qt.SmoothTransformation
                  Hp eq_refl) as K.
    pose proof (scaled_size p (QSize.mk 800 800) Qt.KeepAspectRatio
                  Qt.SmoothTransformation Hp eq_refl) as [Ew Eh].
    apply isNull_false in Hp.
    pose proof (size_scaled_cap_shrinks (QPixmap.width p) (QPixmap.height p)
                  ltac:(lia) ltac:(lia) Hbig) as S.
    cbv zeta in K, S. cbn [QSize.width QSize.height] in K.
    unfold QPixmap.size in Ew, Eh. rewrite <- Ew, <- Eh in S.
    repeat split; try tauto; lia.
Qed.

(** The theorem at a 1600 by 1200 picture. *)
Lemma cap_stage_spec_witness :
  QPixmap.isNull (picture 1600 1200) = false /\
  cap_stage_meets FourRef.cap_stage (picture 1600 1200) /\
  cap_stage_meets Ref.cap_stage (picture 1600 1200).
Proof.
  split; [reflexivity | apply (cap_stage_spec (picture 1600 1200)); reflexivity].
Defined.

(** C2.  Fit stage: in a display area with two positive dimensions the
    result is within the area, fills it one way and is a pixel at most
    off the proportions of the capped pixmap the other way (it may be
    larger than the capped pixmap); in an area with a zero dimension the
    result is the capped pixmap.  (Both variants.) *)
Theorem fit_stage_spec (c : QPixmap.t) (area : QSize.t) :
  QPixmap.isNull c = false ->
  fit_stage_meets FourRef.fit_stage c area /\
  fit_stage_meets Ref.fit_stage c area.
Proof.
  intros Hc. rewrite Ref_fit_stage.
  enough (fit_stage_meets FourRef.fit_stage c area) by (split; assumption).
  split.
  - intros [Hw Hh]. rewrite fit_stage_room by assumption.
    assert (QSize.isEmpty area = false) as He by (apply isEmpty_false; lia).
    pose proof (scaled_keep c area Qt.SmoothTransformation Hc He) as K.
    cbv zeta in K. repeat split; try tauto; lia.
  - intros Hz. apply fit_stage_no_room. lia.
Qed.

(** The theorem at a 100 by 50 picture in a 500 by 500 area. *)
Lemma fit_stage_spec_witness :
  QPixmap.isNull (picture 100 50) = false /\
  fit_stage_meets FourRef.fit_stage (picture 100 50) (QSize.mk 500 500) /\
  fit_stage_meets Ref.fit_stage (picture 100 50) (QSize.mk 500 500).
Proof.
  split; [reflexivity
         | apply (fit_stage_spec (picture 100 50) (QSize.mk 500 500)); reflexivity].
Defined.

(** The scenarios of the specification. *)
Example cap_1600x1200 :
  QPixmap.size (FourRef.cap_stage (picture 1600 1200)) = QSize.mk 800 600.
Proof. reflexivity. Qed.

Example fit_1600x1200_in_400x300 :
  QPixmap.size (FourRef.fit_stage (FourRef.cap_stage (picture 1600 1200))
                                  (QSize.mk 400 300)) = QSize.mk 400 300.
Proof. reflexivity. Qed.

Example fit_100x50_in_500x500 :
  FourRef.cap_stage (picture 100 50) = picture 100 50 /\
  QPixmap.size (FourRef.fit_stage (picture 100 50) (QSize.mk 500 500))
  = QSize.mk 500 250.
Proof. split; reflexivity. Qed.

(** Whole pixels: 3 by 2 in a 10 by 5 area becomes 7 by 5, not 7.5 by 5. *)
Example fit_3x2_in_10x5 :
  QPixmap.size (FourRef.fit_stage (picture 3 2) (QSize.mk 10 5)) = QSize.mk 7 5.
Proof. reflexivity. Qed.

(** C8.  The scale-to-fit computations of [src/4ref.py] and of
    [src/Ref.py] are the same functions: the same capped pixmap, the
    same fit pixmap, the same [update_image]. *)
Theorem update_image_variants_agree :
  (forall p, FourRef.cap_stage p = Ref.cap_stage p) /\
  (forall c area, FourRef.fit_stage c area = Ref.fit_stage c area) /\
  (forall s, FourRef.update_image s = Ref.update_image s).
Proof.
  split; [|split]; intros.
  - now rewrite Ref_cap_stage.
  - now rewrite Ref_fit_stage.
  - now rewrite Ref_update_image.
Qed.

(* ================================================================= *)
(** ** Loading *)

Lemma update_image_None (s : Viewer) :
  original_pixmap s = None -> FourRef.update_image s = s.
Proof. intros H. unfold FourRef.update_image. now rewrite H. Qed.

Lemma update_image_Some (s : Viewer) (o : QPixmap.t) :
  original_pixmap s = Some o ->
  FourRef.update_image s =
  image_label_setPixmap
    (FourRef.fit_stage (FourRef.cap_stage o) (displayArea s))
    (set_scaled_pixmap (Some (FourRef.cap_stage o)) s).
Proof. intros H. unfold FourRef.update_image. now rewrite H. Qed.

(** [load_image_from_url] never raises, and what it leaves depends on the
    fetch alone: the error text on the label, or the body turned into a
    pixmap, stored and displayed. *)
Lemma load_image_from_url_eq (w : World) (s : Viewer) :
  FourRef.load_image_from_url w s =
  Py.Returned tt
    match fetch w (url_input s) with
    | inl e =>
        image_label_setText ("Error loading image: " ++ Py.str_exn e)
                            (requested s)
    | inr body =>
        FourRef.update_image
          (set_original_pixmap (Some (loadFromData w body)) (requested s))
    end.
Proof.
  unfold FourRef.load_image_from_url, Py.try_except, Py.bind, requests_get,
    fetch, requested.
  destruct (http_get w (url_input s)) as [e|r]; [reflexivity|].
  unfold requests.raise_for_status.
  destruct ((400 <=? requests.status_code r) && (requests.status_code r <? 500));
    [reflexivity|].
  destruct ((500 <=? requests.status_code r) && (requests.status_code r <? 600));
    reflexivity.
Qed.

(** A drop that carries URLs is a load of the first one's local file. *)
Lemma dropEvent_eq (w : World) (u : QUrl.t) (rest : list QUrl.t) (s : Viewer) :
  FourRef.dropEvent w (u :: rest) s =
  Py.Returned tt
    (FourRef.update_image
       (set_original_pixmap
          (Some (QPixmap_of_file w (QUrl.toLocalFile u))) s)).
Proof. reflexivity. Qed.

(* ================================================================= *)
(** ** The display invariant *)

(** With a pixmap stored, [update_image] brings the invariant about. *)
Lemma update_image_invariant (s : Viewer) :
  original_pixmap s <> None -> display_invariant (FourRef.update_image s).
Proof.
  intros Ho. destruct (original_pixmap s) as [o|] eqn:Eo; [|congruence].
  rewrite (update_image_Some s o Eo). split.
  - cbn. rewrite Eo. split; intros _; discriminate.
  - intros f Hf. cbn in Hf. injection Hf as <-.
    change (displayArea (image_label_setPixmap _ _)) with (displayArea s).
    split.
    + intros [Hw Hh]. rewrite fit_stage_room by assumption.
      apply scaled_within. apply isEmpty_false. lia.
    + intros Hz. rewrite fit_stage_no_room by assumption.
      apply cap_stage_within.
Qed.

Lemma nothing_shown_invariant (s : Viewer) :
  fit s = None -> original_pixmap s = None -> display_invariant s.
Proof.
  intros Hf Ho. split.
  - rewrite Hf, Ho. tauto.
  - intros f Hf'. congruence.
Qed.

Lemma reset_app_clears (s : Viewer) :
  fit (FourRef.reset_app s) = None /\ original_pixmap (FourRef.reset_app s) = None.
Proof.
  unfold FourRef.reset_app, FourRef.opacity_slider_setValue, FourRef.resize,
    FourRef.resizeEvent, setWindowFlags.
  cbn [url_input set_url_input image_label set_image_label original_pixmap
       set_original_pixmap scaled_pixmap set_scaled_pixmap windowFlags].
  destruct (_ =? _); cbn; destruct (_ =? _); cbn; split; reflexivity.
Qed.

Lemma update_image_original (s : Viewer) :
  original_pixmap (FourRef.update_image s) = original_pixmap s.
Proof.
  unfold FourRef.update_image. destruct (original_pixmap s) eqn:E; [|exact E].
  cbn. exact E.
Qed.

(** The viewer showing a 100 by 50 picture as 400 by 200 in its 400 by
    300 area satisfies the invariant. *)
Lemma showing_4ref_invariant : display_invariant showing_4ref.
Proof.
  split.
  - split; intros _; discriminate.
  - intros f Hf. vm_compute in Hf. injection Hf as <-.
    unfold within_bounds. cbn. split; intros; lia.
Defined.

(** The invariant looks at the image label and the stored pixmap only. *)
Lemma display_invariant_frame (s s' : Viewer) :
  image_label s' = image_label s -> original_pixmap s' = original_pixmap s ->
  display_invariant s -> display_invariant s'.
Proof.
  unfold display_invariant, fit, displayArea. intros -> ->. exact (fun H => H).
Qed.

Lemma toggle_on_top_frame (s : Viewer) :
  image_label (FourRef.toggle_on_top s) = image_label s /\
  original_pixmap (FourRef.toggle_on_top s) = original_pixmap s.
Proof.
  unfold FourRef.toggle_on_top, setWindowFlags.
  destruct (is_on_top s); destruct (Z.eqb _ _); split; reflexivity.
Qed.

(** C3, as amended.  A load whose fetch succeeds, a drop, a resize and a
    reset keep this invariant: a pixmap is on display exactly when one is
    stored, and the pixmap on display is within the display area when
    that has two positive dimensions, within 800 by 800 otherwise; so do
    the opacity and always-on-top handlers.  A load whose fetch fails
    leaves the stored pixmap as it was and puts the error text in place
    of the pixmap on display. *)
Theorem display_invariant_preserved (w : World) (s : Viewer) :
  display_invariant s ->
  (forall body, fetch w (url_input s) = inr body ->
     display_invariant (Py.state_of (FourRef.load_image_from_url w s)))
  /\ (forall u rest,
        display_invariant (Py.state_of (FourRef.dropEvent w (u :: rest) s)))
  /\ (forall window area,
        display_invariant (FourRef.resizeEvent (layout_resized window area s)))
  /\ display_invariant (FourRef.reset_app s)
  /\ display_invariant (FourRef.change_opacity s)
  /\ display_invariant (FourRef.toggle_on_top s)
  /\ (forall e, fetch w (url_input s) = inl e ->
        QLabel.content
          (image_label (Py.state_of (FourRef.load_image_from_url w s)))
        = QLabel.Text ("Error loading image: " ++ Py.str_exn e) /\
        fit (Py.state_of (FourRef.load_image_from_url w s)) = None /\
        original_pixmap (Py.state_of (FourRef.load_image_from_url w s))
        = original_pixmap s).
Proof.
  intros Inv. pose proof Inv as [Hiff Hdims].
  split; [|split; [|split; [|split; [|split; [|split]]]]].
  - intros body Hfetch. rewrite load_image_from_url_eq, Hfetch.
    cbn [Py.state_of]. apply update_image_invariant. cbn. discriminate.
  - intros u rest. rewrite dropEvent_eq. cbn [Py.state_of].
    apply update_image_invariant. cbn. discriminate.
  - intros window area. unfold FourRef.resizeEvent.
    destruct (original_pixmap s) as [o|] eqn:Eo.
    + apply update_image_invariant. cbn. rewrite Eo. discriminate.
    + rewrite update_image_None by exact Eo.
      apply nothing_shown_invariant; [|exact Eo].
      change (fit (layout_resized window area s)) with (fit s).
      destruct (fit s) eqn:Ef; [|reflexivity].
      exfalso. apply (proj1 Hiff); [discriminate | reflexivity].
  - destruct (reset_app_clears s) as [Hf Ho].
    now apply nothing_shown_invariant.
  - now apply (display_invariant_frame s).
  - destruct (toggle_on_top_frame s) as [Hl Ho].
    now apply (display_invariant_frame s).
  - intros e Hfetch. rewrite load_image_from_url_eq, Hfetch.
    cbn [Py.state_of]. split; [|split]; reflexivity.
Qed.

(** The theorem at the viewer showing a picture, for the resize that
    makes the display area 1000 by 1000. *)
Lemma display_invariant_preserved_witness :
  display_invariant showing_4ref /\
  display_invariant
    (FourRef.resizeEvent
       (layout_resized (QSize.mk 1200 1100) (QSize.mk 1000 1000) showing_4ref)).
Proof.
  split; [exact showing_4ref_invariant|].
  apply (display_invariant_preserved (serving 100 50) showing_4ref
           showing_4ref_invariant).
Defined.

(** C3, as worded, fails three ways.  A 100 by 50 picture loaded into a
    1000 by 1000 area is shown 1000 by 500, past the cap; loaded into an
    area without room it is shown 100 by 50, past the area; and a failed
    load over a picture on display leaves one stored and none on
    display. *)
Lemma claimed_invariant_fails :
  (claimed_invariant (fresh_4ref (QSize.mk 1000 1000)) /\
   ~ claimed_invariant
       (Py.state_of (FourRef.load_image_from_url
                       (serving 100 50) (fresh_4ref (QSize.mk 1000 1000)))))
  /\
  (claimed_invariant (fresh_4ref (QSize.mk 0 0)) /\
   ~ claimed_invariant
       (Py.state_of (FourRef.load_image_from_url
                       (serving 100 50) (fresh_4ref (QSize.mk 0 0)))))
  /\
  (claimed_invariant showing_4ref /\
   ~ claimed_invariant
       (Py.state_of (FourRef.load_image_from_url not_found showing_4ref))).
Proof.
  split; [|split]; split.
  - split; [cbn; tauto | intros f Hf; discriminate].
  - intros [_ H]. specialize (H _ eq_refl). cbn in H. lia.
  - split; [cbn; tauto | intros f Hf; discriminate].
  - intros [_ H]. specialize (H _ eq_refl). cbn in H. lia.
  - split; [split; intros _; discriminate|].
    intros f Hf. vm_compute in Hf. injection Hf as <-. cbn. lia.
  - intros [[_ H] _]. apply H; [discriminate | reflexivity].
Qed.

(* ================================================================= *)
(** ** Failures of a load *)

(** A failed fetch: the error text on the label, the request on record,
    nothing else touched. *)
Lemma load_fetch_failure (w : World) (s : Viewer) (e : Py.Exn) :
  fetch w (url_input s) = inl e ->
  Py.state_of (FourRef.load_image_from_url w s) =
  image_label_setText ("Error loading image: " ++ Py.str_exn e) (requested s).
Proof.
  intros H. now rewrite load_image_from_url_eq, H.
Qed.

(** A body that is no picture: no exception, so the null pixmap is stored
    and displayed, and no error text appears. *)
Lemma load_undecodable (w : World) (s : Viewer) (body : list byte) :
  fetch w (url_input s) = inr body -> decode w body = None ->
  original_pixmap (Py.state_of (FourRef.load_image_from_url w s))
  = Some QPixmap.null /\
  QLabel.content (image_label (Py.state_of (FourRef.load_image_from_url w s)))
  = QLabel.Picture QPixmap.null.
Proof.
  intros Hf Hd. rewrite load_image_from_url_eq, Hf. cbn [Py.state_of].
  unfold loadFromData. rewrite Hd.
  rewrite (update_image_Some _ QPixmap.null) by reflexivity.
  rewrite cap_stage_small by (cbn; lia).
  assert (forall area, FourRef.fit_stage QPixmap.null area = QPixmap.null) as E.
  { intros area. unfold FourRef.fit_stage.
    destruct (_ && _); [|reflexivity]. now apply scaled_null. }
  rewrite E. split; reflexivity.
Qed.

(** The scenario of the specification: a 404 over a picture on display.
    The stored pixmap stays, the label carries the error text. *)
Example load_404_shows_error :
  Py.state_of (FourRef.load_image_from_url not_found showing_4ref) =
  image_label_setText
    "Error loading image: 404 Client Error: Not Found for url: http://example.org/a.png"
    (requested showing_4ref)
  /\ original_pixmap (requested showing_4ref) = Some (picture 100 50).
Proof. split; reflexivity. Qed.

(** C4, at the failing input.  The server answers 200 with bytes that are
    no picture while a 100 by 50 picture is on display: the stored
    pixmap is replaced by the null pixmap, which is put on display, and
    no error text is shown.  (Both variants.) *)
Lemma load_undecodable_replaces_original :
  fetch garbage (url_input showing_4ref) = inr [x6f; x6f; x70; x73]
  /\ original_pixmap showing_4ref = Some (picture 100 50)
  /\ original_pixmap
       (Py.state_of (FourRef.load_image_from_url garbage showing_4ref))
     = Some QPixmap.null
  /\ QLabel.content
       (image_label
          (Py.state_of (FourRef.load_image_from_url garbage showing_4ref)))
     = QLabel.Picture QPixmap.null
  /\ original_pixmap
       (Py.state_of (Ref.load_image_from_url garbage showing_Ref))
     = Some QPixmap.null
  /\ QLabel.content
       (image_label (Py.state_of (Ref.load_image_from_url garbage showing_Ref)))
     = QLabel.Picture QPixmap.null.
Proof.
  assert (fetch garbage (url_input showing_4ref) = inr [x6f; x6f; x70; x73])
    as Hf by reflexivity.
  destruct (load_undecodable garbage showing_4ref _ Hf eq_refl) as [Ho Hl].
  assert (fetch garbage (url_input showing_Ref) = inr [x6f; x6f; x70; x73])
    as Hf' by reflexivity.
  destruct (load_undecodable garbage showing_Ref _ Hf' eq_refl) as [Ho' Hl'].
  rewrite Ref_load_image_from_url.
  repeat split; assumption || reflexivity.
Qed.

(* ================================================================= *)
(** ** Drops *)

(** A drag released over the window: refused, it leaves the viewer
    alone; accepted, it is the drop of the URLs read out of it. *)
Lemma drag_and_drop_eq (w : World) (mimeData : QMimeData.t) (s : Viewer) :
  drag_and_drop w mimeData s =
  if QMimeData.hasUrls mimeData
  then FourRef.dropEvent w (QMimeData.urls mimeData) s
  else Py.Returned tt s.
Proof.
  unfold drag_and_drop, FourRef.dragEnterEvent.
  destruct (QMimeData.hasUrls mimeData); reflexivity.
Qed.

(** Either way the viewer is as it was, or the first URL was loaded. *)
Lemma drag_and_drop_cases (w : World) (mimeData : QMimeData.t) (s : Viewer) :
  Py.state_of (drag_and_drop w mimeData s) = s \/
  exists u,
    Py.state_of (drag_and_drop w mimeData s) =
    FourRef.update_image
      (set_original_pixmap
         (Some (QPixmap_of_file w (QUrl.toLocalFile u))) s).
Proof.
  rewrite drag_and_drop_eq.
  destruct (QMimeData.hasUrls mimeData); [|left; reflexivity].
  destruct (QMimeData.urls mimeData) as [|u rest]; [left; reflexivity|].
  right. exists u. now rewrite dropEvent_eq.
Qed.

(** A dropped file that cannot be read, or holds no picture: the null
    pixmap is stored and displayed, without any error text. *)
Lemma drop_unreadable (w : World) (u : QUrl.t) (rest : list QUrl.t) (s : Viewer) :
  QPixmap_of_file w (QUrl.toLocalFile u) = QPixmap.null ->
  Py.state_of (FourRef.dropEvent w (u :: rest) s) =
  image_label_setPixmap QPixmap.null
    (set_scaled_pixmap (Some QPixmap.null)
       (set_original_pixmap (Some QPixmap.null) s)).
Proof.
  intros H. rewrite dropEvent_eq, H. cbn [Py.state_of].
  rewrite (update_image_Some _ QPixmap.null) by reflexivity.
  rewrite cap_stage_small by (cbn; lia).
  replace (FourRef.fit_stage QPixmap.null _) with QPixmap.null; [reflexivity|].
  unfold FourRef.fit_stage. destruct (_ && _); [|reflexivity].
  symmetry. now apply scaled_null.
Qed.

(** C5, at the failing input.  A file that cannot be read is dropped
    while a 100 by 50 picture is on display: nothing is raised, the
    stored pixmap is replaced by the null pixmap, which is put on
    display, and no error text is shown.  (Both variants.) *)
Lemma drop_unreadable_replaces_original :
  read_file garbage (QUrl.toLocalFile missing_file) = None
  /\ original_pixmap showing_4ref = Some (picture 100 50)
  /\ FourRef.dropEvent garbage [missing_file] showing_4ref =
     Py.Returned tt
       (image_label_setPixmap QPixmap.null
          (set_scaled_pixmap (Some QPixmap.null)
             (set_original_pixmap (Some QPixmap.null) showing_4ref)))
  /\ Ref.dropEvent garbage [missing_file] showing_Ref =
     Py.Returned tt
       (image_label_setPixmap QPixmap.null
          (set_scaled_pixmap (Some QPixmap.null)
             (set_original_pixmap (Some QPixmap.null) showing_Ref))).
Proof.
  repeat split; vm_compute; reflexivity.
Qed.

(** C10.  Of the URLs a drop carries only the first counts: the handler
    does what it would do had that one been dropped alone, and the pixmap
    it stores is the one made from the first URL's local file.  (Both
    variants.) *)
Theorem dropEvent_first_only
        (w : World) (u : QUrl.t) (rest : list QUrl.t) (s : Viewer) :
  (FourRef.dropEvent w (u :: rest) s = FourRef.dropEvent w [u] s /\
   original_pixmap (Py.state_of (FourRef.dropEvent w (u :: rest) s))
   = Some (QPixmap_of_file w (QUrl.toLocalFile u)))
  /\
  (Ref.dropEvent w (u :: rest) s = Ref.dropEvent w [u] s /\
   original_pixmap (Py.state_of (Ref.dropEvent w (u :: rest) s))
   = Some (QPixmap_of_file w (QUrl.toLocalFile u))).
Proof.
  rewrite Ref_dropEvent.
  assert (FourRef.dropEvent w (u :: rest) s = FourRef.dropEvent w [u] s /\
          original_pixmap (Py.state_of (FourRef.dropEvent w (u :: rest) s))
          = Some (QPixmap_of_file w (QUrl.toLocalFile u))) as H.
  { split.
    - now rewrite !dropEvent_eq.
    - rewrite dropEvent_eq. cbn [Py.state_of].
      now rewrite update_image_original. }
  split; exact H.
Qed.

(* ================================================================= *)
(** ** The clipboard gate *)

Lemma endswith_spec (s suffix : string) :
  Py.endswith s suffix = true <-> exists prefix, s = prefix ++ suffix.
Proof.
  induction s as [|c r IH]; cbn [Py.endswith].
  - destruct (String.eqb_spec "" suffix) as [<-|Hne].
    + split; [exists ""; reflexivity | reflexivity].
    + split; [discriminate|]. intros [prefix H]. exfalso. apply Hne.
      destruct prefix; [exact H | discriminate].
  - destruct (String.eqb_spec (String c r) suffix) as [<-|Hne].
    + split; [exists ""; reflexivity | reflexivity].
    + rewrite IH. split.
      * intros [prefix ->]. exists (String c prefix). reflexivity.
      * intros [prefix H]. destruct prefix as [|c' prefix'].
        -- exfalso. apply Hne. exact H.
        -- cbn in H. injection H as _ H. exists prefix'. exact H.
Qed.

(** The test both variants run on the clipboard text says what
    [looks_like_image] says. *)
Lemma gate_spec (text : string) :
  existsb (fun ext => Py.endswith (Py.lower text) ext) image_suffixes = true
  <-> looks_like_image text.
Proof.
  rewrite existsb_exists. unfold looks_like_image. split.
  - intros (ext & Hin & He). apply endswith_spec in He as [prefix He].
    exists ext, prefix. split; assumption.
  - intros (ext & prefix & Hin & He). exists ext. split; [assumption|].
    apply endswith_spec. exists prefix. exact He.
Qed.

Lemma update_image_http_requests (s : Viewer) :
  http_requests (FourRef.update_image s) = http_requests s.
Proof.
  unfold FourRef.update_image. destruct (original_pixmap s); reflexivity.
Qed.

(** Every load asks the network once, for the text of the URL field. *)
Lemma load_http_requests (w : World) (s : Viewer) :
  http_requests (Py.state_of (FourRef.load_image_from_url w s))
  = (http_requests s ++ [url_input s])%list.
Proof.
  rewrite load_image_from_url_eq. cbn [Py.state_of].
  destruct (fetch w (url_input s)); [reflexivity|].
  now rewrite update_image_http_requests.
Qed.

Lemma auto_fetch_eq (w : World) (s : Viewer) :
  FourRef.auto_fetch_url_from_clipboard w s =
  if existsb (fun ext => Py.endswith (Py.lower (clipboard_text w)) ext)
             image_suffixes
  then FourRef.load_image_from_url w (set_url_input (clipboard_text w) s)
  else Py.Returned tt s.
Proof. reflexivity. Qed.

(** C6.  At startup a load is dispatched, with the clipboard text as its
    URL, exactly when the lowered text ends with one of .png, .jpg,
    .jpeg, .gif, .svg; any other text leaves the viewer as it was, with
    no error.  (Both variants.) *)
Theorem clipboard_gate (w : World) (s : Viewer) :
  (looks_like_image (clipboard_text w) <->
   http_requests (Py.state_of (FourRef.auto_fetch_url_from_clipboard w s))
   = (http_requests s ++ [clipboard_text w])%list)
  /\ (looks_like_image (clipboard_text w) ->
      FourRef.auto_fetch_url_from_clipboard w s
      = FourRef.load_image_from_url w (set_url_input (clipboard_text w) s))
  /\ (~ looks_like_image (clipboard_text w) ->
      FourRef.auto_fetch_url_from_clipboard w s = Py.Returned tt s)
  /\ Ref.auto_fetch_url_from_clipboard w s
     = FourRef.auto_fetch_url_from_clipboard w s.
Proof.
  pose proof (gate_spec (clipboard_text w)) as G.
  pose proof (auto_fetch_eq w s) as E.
  destruct (existsb _ image_suffixes).
  - assert (looks_like_image (clipboard_text w)) as L by (now apply G).
    split; [|split; [|split]]; [rewrite E .. | reflexivity].
    + split; [intros _ | intros _; exact L].
      now rewrite load_http_requests.
    + reflexivity.
    + intros N. contradiction.
  - assert (~ looks_like_image (clipboard_text w)) as N.
    { intros L. apply G in L. discriminate. }
    split; [|split; [|split]]; [rewrite E .. | reflexivity].
    + split; [intros L; contradiction|].
      cbn [Py.state_of]. intros H. exfalso.
      apply (f_equal (@List.length string)) in H.
      rewrite length_app in H. cbn in H. lia.
    + intros L. contradiction.
    + reflexivity.
Qed.

(** At startup, with nothing like an image URL on the clipboard, the
    viewer is the one just built. *)
Example startup_ignores_other_text (area : QSize.t) :
  FourRef.__init__ not_found area = Py.Returned tt (FourRef.constructed area).
Proof. reflexivity. Qed.

Example clipboard_upper_case_png :
  looks_like_image "HTTPS://EXAMPLE.ORG/CAT.PNG".
Proof. apply gate_spec. reflexivity. Qed.

Example clipboard_plain_text : ~ looks_like_image "see picture.png here".
Proof. intros L. apply gate_spec in L. discriminate. Qed.

(* ================================================================= *)
(** ** Reset *)

Lemma stays_on_top_cleared (flags : Z) :
  Z.testbit (Z.land flags (Z.lnot Qt.WindowStaysOnTopHint)) 18 = false.
Proof.
  rewrite Z.land_spec, Z.lnot_spec by lia.
  change (Z.testbit Qt.WindowStaysOnTopHint 18) with true.
  apply andb_false_r.
Qed.

Ltac reset_cases :=
  cbn [url_input set_url_input image_label set_image_label original_pixmap
       set_original_pixmap scaled_pixmap set_scaled_pixmap windowFlags
       image_label_setText];
  match goal with
  | |- context [Z.eqb ?f (Z.land ?f ?m)] =>
      let E := fresh "E" in
      let Heq := fresh "Heq" in
      pose proof (stays_on_top_cleared f) as E;
      destruct (Z.eqb_spec f (Z.land f m)) as [Heq|_];
      [rewrite <- Heq in E|]
  end;
  cbn -[Z.eqb Z.testbit Z.land Z.lnot];
  match goal with
  | |- context [Z.eqb 100 ?v] =>
      let Heq := fresh "Heq" in
      destruct (Z.eqb_spec 100 v) as [Heq|_]
  end;
  cbn -[Z.testbit Z.land Z.lnot];
  repeat match goal with
         | H : 100 = _ |- _ => rewrite <- H
         | H : Z.testbit _ 18 = false |- _ => rewrite H
         end;
  split; reflexivity.

Lemma reset_app_4ref (s : Viewer) :
  display_state (FourRef.reset_app s) =
  mkDisplayState "" None None (QLabel.Text placeholder) false false 1 100
                 "Window Opacity: 100%" (QSize.mk 480 360)
  /\ fit (FourRef.reset_app s) = None.
Proof.
  unfold display_state, fit, FourRef.reset_app, FourRef.opacity_slider_setValue,
    FourRef.resize, FourRef.resizeEvent, setWindowFlags.
  reset_cases.
Qed.

Lemma reset_app_Ref (s : Viewer) :
  display_state (Ref.reset_app s) =
  mkDisplayState "" None None (QLabel.Text placeholder) false false 1 100
                 "Window Opacity: 100%" (QSize.mk 400 300)
  /\ fit (Ref.reset_app s) = None.
Proof.
  unfold display_state, fit, Ref.reset_app, Ref.opacity_slider_setValue,
    Ref.resize, Ref.resizeEvent, setWindowFlags.
  reset_cases.
Qed.

(** C7.  Whatever the viewer was, after [reset_app] its display state is
    the one it was built with: URL field empty, no pixmap stored, capped
    or on display, the placeholder text on the label, always-on-top off
    (attribute and window flag), opacity 1, slider at 100, opacity label
    at 100%, and the window at its default size, 480 by 360 in
    [src/4ref.py] and 400 by 300 in [src/Ref.py]. *)
Theorem reset_app_initial_state (s : Viewer) (area : QSize.t) :
  (display_state (FourRef.reset_app s) = display_state (FourRef.constructed area)
   /\ fit (FourRef.reset_app s) = None)
  /\
  (display_state (Ref.reset_app s) = display_state (Ref.constructed area)
   /\ fit (Ref.reset_app s) = None).
Proof.
  destruct (reset_app_4ref s) as [D4 F4]. destruct (reset_app_Ref s) as [DR FR].
  split; split; [exact D4 | exact F4 | exact DR | exact FR].
Qed.

Example initial_display_state :
  display_state (FourRef.constructed (QSize.mk 0 0)) =
  mkDisplayState "" None None (QLabel.Text "Drag and Drop an Image Here")
                 false false 1 100 "Window Opacity: 100%" (QSize.mk 480 360).
Proof. reflexivity. Qed.

(** The scenario of the specification: a load, a toggle, then a reset. *)
Example reset_after_load_and_toggle :
  is_on_top (FourRef.toggle_on_top showing_4ref) = true /\
  display_state (FourRef.reset_app (FourRef.toggle_on_top showing_4ref))
  = display_state (FourRef.constructed (QSize.mk 400 300)).
Proof. split; reflexivity. Qed.

(** Outside the display state, the caption of the toggle button is not
    among the things [reset_app] touches. *)
Remark reset_app_keeps_caption (s : Viewer) :
  toggle_top_button (FourRef.reset_app s) = toggle_top_button s.
Proof.
  unfold FourRef.reset_app, FourRef.opacity_slider_setValue, FourRef.resize,
    FourRef.resizeEvent, setWindowFlags.
  cbn [url_input set_url_input image_label set_image_label original_pixmap
       set_original_pixmap scaled_pixmap set_scaled_pixmap windowFlags
       image_label_setText].
  destruct (Z.eqb _ (Z.land _ _)); cbn -[Z.eqb];
    destruct (Z.eqb 100 _); reflexivity.
Qed.

(* ================================================================= *)
(** ** Opacity *)

Lemma truediv_100 (v : Z) : (truediv v 100 == v # 100)%Q.
Proof.
  unfold truediv. rewrite Qred_correct.
  unfold Qeq, Qdiv, Qmult, Qinv, inject_Z. cbn. lia.
Qed.

(** Moving the slider to another value of its range runs the handler on
    that value. *)
Lemma opacity_slider_moved (v : Z) (s : Viewer) :
  10 <= v <= 100 -> opacity_slider s <> v ->
  FourRef.opacity_slider_setValue v s =
  FourRef.change_opacity (set_opacity_slider v s).
Proof.
  intros Hv Hne. unfold FourRef.opacity_slider_setValue.
  replace (Z.max 10 (Z.min 100 v)) with v by lia.
  destruct (Z.eqb_spec v (opacity_slider s)); [congruence | reflexivity].
Qed.


(** A level between 0 and 1 is kept as its 255ths, rounded down. *)
Lemma kept_opacity_percent (v : Z) :
  0 <= v <= 100 -> (kept_opacity (truediv v 100) == (255 * v / 100) # 255)%Q.
Proof.
  intros Hv. unfold kept_opacity, qBound, qMin, qMax.
  assert (Qle_bool (truediv v 100) 1 = true) as E1.
  { apply Qle_bool_iff. rewrite truediv_100. unfold Qle. cbn. lia. }
  rewrite E1. cbn [negb].
  destruct (Qle_bool (truediv v 100) 0) eqn:E0; cbn [negb].
  - (* the level is 0 *)
    apply Qle_bool_iff in E0. rewrite truediv_100 in E0.
    unfold Qle in E0. cbn in E0. assert (v = 0) as -> by lia. reflexivity.
  - rewrite Qred_correct.
    assert (Qfloor (truediv v 100 * 255) = 255 * v / 100) as ->.
    { rewrite (Qfloor_comp _ ((v # 100) * 255)) by (now rewrite truediv_100).
      unfold Qfloor, Qmult. cbn [Qnum Qden].
      rewrite (Z.mul_comm v 255). reflexivity. }
    reflexivity.
Qed.




(** The values of the slider whose hundredths the window keeps exactly are
    the multiples of 20. *)
Example opacity_kept_exactly :
  map (fun v => Qeq_bool (kept_opacity (truediv v 100)) (v # 100))
      [10; 20; 25; 40; 50; 60; 80; 99; 100]
  = [false; true; false; true; false; true; true; false; true].
Proof. reflexivity. Qed.

(** For every value of the slider, the whole number the doubles of the
    source give is the one of the exact quotient. *)
Example doubles_keep_the_same :
  forallb (fun v => uint_is (double_level_255 v)
                            (Qfloor (truediv v 100 * 255)))
          (map Z.of_nat (seq 10 91))
  = true.
Proof. vm_compute. reflexivity. Qed.

(* ================================================================= *)
(** ** Every state the viewer reaches *)

Lemma display_invariant_shown_within (s : Viewer) :
  display_invariant s -> shown_within s.
Proof. intros [[H _] B]. split; assumption. Qed.

Lemma nothing_shown_within (s : Viewer) : fit s = None -> shown_within s.
Proof.
  intros Hf. split.
  - intros H. congruence.
  - intros f H. congruence.
Qed.

Lemma shown_within_frame (s s' : Viewer) :
  image_label s' = image_label s -> original_pixmap s' = original_pixmap s ->
  shown_within s -> shown_within s'.
Proof.
  unfold shown_within, fit, displayArea. intros -> ->. exact (fun H => H).
Qed.

Lemma opacity_slider_setValue_frame (v : Z) (s : Viewer) :
  image_label (FourRef.opacity_slider_setValue v s) = image_label s /\
  original_pixmap (FourRef.opacity_slider_setValue v s) = original_pixmap s.
Proof.
  unfold FourRef.opacity_slider_setValue.
  destruct (Z.eqb _ _); split; reflexivity.
Qed.

Lemma load_shown_within (w : World) (s : Viewer) :
  shown_within (Py.state_of (FourRef.load_image_from_url w s)).
Proof.
  rewrite load_image_from_url_eq. cbn [Py.state_of].
  destruct (fetch w (url_input s)) as [e|body].
  - now apply nothing_shown_within.
  - apply display_invariant_shown_within, update_image_invariant.
    cbn. discriminate.
Qed.

(** One event keeps it. *)
Lemma handle_shown_within (w : World) (e : Event) (s : Viewer) :
  shown_within s -> shown_within (handle w e s).
Proof.
  intros Hs. destruct e as [url|mimeData|window area|v| |]; cbn [handle].
  - apply load_shown_within.
  - destruct (drag_and_drop_cases w mimeData s) as [E|[u E]]; rewrite E;
      [exact Hs|].
    apply display_invariant_shown_within, update_image_invariant.
    cbn. discriminate.
  - unfold FourRef.resizeEvent.
    destruct (original_pixmap s) as [o|] eqn:Eo.
    + apply display_invariant_shown_within, update_image_invariant.
      cbn. rewrite Eo. discriminate.
    + rewrite update_image_None by exact Eo.
      apply nothing_shown_within.
      change (fit (layout_resized window area s)) with (fit s).
      destruct (fit s) eqn:Ef; [|reflexivity].
      exfalso. apply (proj1 Hs); [rewrite Ef; discriminate | exact Eo].
  - destruct (opacity_slider_setValue_frame v s) as [Hl Ho].
    now apply (shown_within_frame s).
  - destruct (toggle_on_top_frame s) as [Hl Ho].
    now apply (shown_within_frame s).
  - apply nothing_shown_within. apply reset_app_clears.
Qed.

(** X20.  From startup on, whatever the events and whatever the worlds they
    happen in, a pixmap is on display only when one is stored, and it is
    within the display area, or within the cap when the area has no
    room. *)
Theorem shown_within_always (w0 : World) (area : QSize.t)
        (events : list (World * Event)) :
  shown_within (run events (started w0 area)).
Proof.
  assert (shown_within (started w0 area)) as H0.
  { unfold started, FourRef.__init__. rewrite auto_fetch_eq.
    destruct (existsb _ image_suffixes).
    - apply load_shown_within.
    - now apply nothing_shown_within. }
  revert H0. generalize (started w0 area).
  induction events as [|[w e] rest IH]; intros s Hs; cbn [run].
  - exact Hs.
  - apply IH. now apply handle_shown_within.
Qed.

(* ================================================================= *)
(** ** Always-on-top *)

Lemma hint_bits (n : Z) :
  0 <= n -> Z.testbit Qt.WindowStaysOnTopHint n = (18 =? n).
Proof.
  intros Hn. change Qt.WindowStaysOnTopHint with (2 ^ 18).
  apply Z.pow2_bits_eqb. lia.
Qed.

Lemma setWindowFlags_flags (flags : Z) (s : Viewer) :
  windowFlags (setWindowFlags flags s) = flags.
Proof.
  unfold setWindowFlags. destruct (Z.eqb_spec (windowFlags s) flags) as [E|_].
  - exact E.
  - reflexivity.
Qed.

Lemma toggle_on_top_flags (s : Viewer) :
  windowFlags (FourRef.toggle_on_top s) =
  if is_on_top s
  then Z.land (windowFlags s) (Z.lnot Qt.WindowStaysOnTopHint)
  else Z.lor (windowFlags s) Qt.WindowStaysOnTopHint.
Proof.
  unfold FourRef.toggle_on_top. destruct (is_on_top s); cbn;
    apply setWindowFlags_flags.
Qed.

Lemma toggle_on_top_is_on_top (s : Viewer) :
  is_on_top (FourRef.toggle_on_top s) = negb (is_on_top s).
Proof.
  unfold FourRef.toggle_on_top, setWindowFlags.
  destruct (is_on_top s) eqn:E; destruct (Z.eqb _ _); cbn; rewrite E;
    reflexivity.
Qed.

(** X1.  [toggle_on_top] flips [is_on_top], makes the stays-on-top window
    flag and the caption of the button say the new value, leaves every
    other window flag alone and leaves the window shown.  (Both
    variants.) *)
Theorem toggle_on_top_spec (s : Viewer) :
  is_on_top (FourRef.toggle_on_top s) = negb (is_on_top s)
  /\ Z.testbit (windowFlags (FourRef.toggle_on_top s)) 18 = negb (is_on_top s)
  /\ (forall n, 0 <= n -> n <> 18 ->
        Z.testbit (windowFlags (FourRef.toggle_on_top s)) n
        = Z.testbit (windowFlags s) n)
  /\ toggle_top_button (FourRef.toggle_on_top s)
     = (if is_on_top s then "Toggle Always-on-Top (OFF)"
        else "Toggle Always-on-Top (ON)")
  /\ isVisible (FourRef.toggle_on_top s) = true
  /\ Ref.toggle_on_top s = FourRef.toggle_on_top s.
Proof.
  split; [apply toggle_on_top_is_on_top|].
  split; [|split; [|split; [|split]]].
  - rewrite toggle_on_top_flags. destruct (is_on_top s).
    + rewrite Z.land_spec, Z.lnot_spec, hint_bits by lia. apply andb_false_r.
    + rewrite Z.lor_spec, hint_bits by lia. apply orb_true_r.
  - intros n Hn Hne. rewrite toggle_on_top_flags.
    assert ((18 =? n) = false) as E by (apply Z.eqb_neq; lia).
    destruct (is_on_top s).
    + rewrite Z.land_spec, Z.lnot_spec, hint_bits, E by lia. apply andb_true_r.
    + rewrite Z.lor_spec, hint_bits, E by lia. apply orb_false_r.
  - unfold FourRef.toggle_on_top, setWindowFlags.
    destruct (is_on_top s) eqn:E; destruct (Z.eqb _ _); reflexivity.
  - reflexivity.
  - reflexivity.
Qed.

(** X2.  Two toggles in a row give back [is_on_top] as it was, and
    leave the stays-on-top window flag saying it; they give back the
    window flags as they were exactly when the flag and [is_on_top] said
    the same to begin with.  (Both variants.) *)
Theorem toggle_on_top_twice (s : Viewer) :
  is_on_top (FourRef.toggle_on_top (FourRef.toggle_on_top s)) = is_on_top s
  /\ Z.testbit (windowFlags (FourRef.toggle_on_top (FourRef.toggle_on_top s))) 18
     = is_on_top s
  /\ (forall n, 0 <= n -> n <> 18 ->
        Z.testbit (windowFlags (FourRef.toggle_on_top (FourRef.toggle_on_top s))) n
        = Z.testbit (windowFlags s) n)
  /\ (windowFlags (FourRef.toggle_on_top (FourRef.toggle_on_top s)) = windowFlags s
      <-> on_top_in_sync s)
  /\ Ref.toggle_on_top (Ref.toggle_on_top s)
     = FourRef.toggle_on_top (FourRef.toggle_on_top s).
Proof.
  assert (Z.testbit (windowFlags (FourRef.toggle_on_top (FourRef.toggle_on_top s))) 18
          = is_on_top s) as H18.
  { rewrite !toggle_on_top_flags, toggle_on_top_is_on_top.
    destruct (is_on_top s); cbn [negb].
    - rewrite Z.lor_spec, hint_bits by lia. apply orb_true_r.
    - rewrite Z.land_spec, Z.lnot_spec, hint_bits by lia. apply andb_false_r. }
  assert (forall n, 0 <= n -> n <> 18 ->
            Z.testbit (windowFlags (FourRef.toggle_on_top (FourRef.toggle_on_top s))) n
            = Z.testbit (windowFlags s) n) as Hrest.
  { intros n Hn Hne. rewrite !toggle_on_top_flags, toggle_on_top_is_on_top.
    assert ((18 =? n) = false) as E by (apply Z.eqb_neq; lia).
    destruct (is_on_top s); cbn [negb].
    - rewrite Z.lor_spec, Z.land_spec, Z.lnot_spec, hint_bits, E by lia.
      cbn. now rewrite orb_false_r, andb_true_r.
    - rewrite Z.land_spec, Z.lor_spec, Z.lnot_spec, hint_bits, E by lia.
      cbn. now rewrite orb_false_r, andb_true_r. }
  split; [rewrite !toggle_on_top_is_on_top; apply negb_involutive|].
  split; [exact H18|]. split; [exact Hrest|]. split; [|reflexivity].
  unfold on_top_in_sync. split.
  - intros Heq. rewrite <- Heq. exact H18.
  - intros Hsync. apply Z.bits_inj'. intros n Hn.
    destruct (Z.eq_dec n 18) as [->|Hne].
    + rewrite H18. symmetry. exact Hsync.
    + apply Hrest; assumption.
Qed.

(** In sync, at the viewer just built, the flags come back; out of sync,
    with the flag set and [is_on_top] off, two toggles clear the flag;
    and with the flag clear and [is_on_top] on, two toggles set it. *)
Example toggle_on_top_twice_at_start :
  windowFlags
    (FourRef.toggle_on_top
       (FourRef.toggle_on_top (FourRef.constructed (QSize.mk 400 300))))
  = windowFlags (FourRef.constructed (QSize.mk 400 300)).
Proof. reflexivity. Qed.

Example toggle_on_top_twice_out_of_sync :
  let s := set_windowFlags (Z.lor Qt.Window Qt.WindowStaysOnTopHint)
                           (FourRef.constructed (QSize.mk 400 300)) in
  windowFlags (FourRef.toggle_on_top (FourRef.toggle_on_top s)) = Qt.Window
  /\ windowFlags s <> Qt.Window.
Proof. split; [reflexivity | discriminate]. Qed.

Example toggle_on_top_twice_out_of_sync_set :
  let s := set_is_on_top true (FourRef.constructed (QSize.mk 400 300)) in
  windowFlags s = Qt.Window
  /\ windowFlags (FourRef.toggle_on_top (FourRef.toggle_on_top s))
     = Z.lor Qt.Window Qt.WindowStaysOnTopHint.
Proof. split; reflexivity. Qed.

(* ================================================================= *)
(** ** What each handler leaves alone *)

Lemma update_image_controls (s : Viewer) :
  same_controls s (FourRef.update_image s).
Proof.
  unfold FourRef.update_image. destruct (original_pixmap s);
    repeat split; reflexivity.
Qed.

Lemma load_controls (w : World) (s : Viewer) :
  same_controls s (Py.state_of (FourRef.load_image_from_url w s)).
Proof.
  rewrite load_image_from_url_eq. cbn [Py.state_of].
  destruct (fetch w (url_input s)); repeat split; reflexivity.
Qed.

Lemma drag_and_drop_controls
      (w : World) (mimeData : QMimeData.t) (s : Viewer) :
  same_controls s (Py.state_of (drag_and_drop w mimeData s)).
Proof.
  destruct (drag_and_drop_cases w mimeData s) as [E|[u E]]; rewrite E;
    repeat split; reflexivity.
Qed.

Lemma resized_controls (window area : QSize.t) (s : Viewer) :
  same_controls s (FourRef.resizeEvent (layout_resized window area s)).
Proof.
  unfold FourRef.resizeEvent, FourRef.update_image, layout_resized.
  cbn [original_pixmap set_image_label set_windowSize].
  destruct (original_pixmap s); repeat split; reflexivity.
Qed.

Lemma opacity_slider_setValue_pictures (v : Z) (s : Viewer) :
  same_pictures s (FourRef.opacity_slider_setValue v s)
  /\ is_on_top (FourRef.opacity_slider_setValue v s) = is_on_top s
  /\ windowFlags (FourRef.opacity_slider_setValue v s) = windowFlags s
  /\ isVisible (FourRef.opacity_slider_setValue v s) = isVisible s
  /\ toggle_top_button (FourRef.opacity_slider_setValue v s)
     = toggle_top_button s.
Proof.
  unfold FourRef.opacity_slider_setValue.
  destruct (Z.eqb _ _); repeat split; reflexivity.
Qed.

Lemma toggle_on_top_pictures (s : Viewer) :
  same_pictures s (FourRef.toggle_on_top s)
  /\ opacity_slider (FourRef.toggle_on_top s) = opacity_slider s
  /\ windowOpacity (FourRef.toggle_on_top s) = windowOpacity s
  /\ opacity_label (FourRef.toggle_on_top s) = opacity_label s.
Proof.
  unfold FourRef.toggle_on_top, setWindowFlags.
  destruct (is_on_top s); destruct (Z.eqb _ _); repeat split; reflexivity.
Qed.

Lemma reset_app_http_requests (s : Viewer) :
  http_requests (FourRef.reset_app s) = http_requests s.
Proof.
  unfold FourRef.reset_app, FourRef.opacity_slider_setValue, FourRef.resize,
    FourRef.resizeEvent, setWindowFlags.
  cbn [url_input set_url_input image_label set_image_label original_pixmap
       set_original_pixmap scaled_pixmap set_scaled_pixmap windowFlags
       image_label_setText].
  destruct (Z.eqb _ (Z.land _ _)); cbn -[Z.eqb];
    destruct (Z.eqb 100 _); reflexivity.
Qed.

Lemma reset_app_visible (s : Viewer) : isVisible (FourRef.reset_app s) = true.
Proof. reflexivity. Qed.

Lemma started_controls (w : World) (area : QSize.t) :
  same_controls (FourRef.constructed area) (started w area).
Proof.
  unfold started, FourRef.__init__. rewrite auto_fetch_eq.
  destruct (existsb _ image_suffixes).
  - apply (load_controls w (set_url_input (clipboard_text w)
                                          (FourRef.constructed area))).
  - repeat split; reflexivity.
Qed.

(** X3.  Loading, dropping and resizing never touch the window controls:
    always-on-top (attribute, window flag and caption), visibility, the
    slider, the window opacity and the opacity label stay as they
    were. *)
Theorem picture_handlers_keep_controls (w : World) (s : Viewer) :
  (forall url, same_controls s (handle w (LoadClicked url) s))
  /\ (forall mimeData, same_controls s (handle w (Dropped mimeData) s))
  /\ (forall window area, same_controls s (handle w (Resized window area) s)).
Proof.
  split; [|split].
  - intros url. cbn [handle].
    apply (load_controls w (set_url_input url s)).
  - intros mimeData. apply drag_and_drop_controls.
  - intros window area. apply resized_controls.
Qed.

(** X4.  Moving the slider and toggling always-on-top never touch the
    picture side: the URL field, the image label, the stored and the
    capped pixmap, the window size and the requests made stay as they
    were. *)
Theorem control_handlers_keep_pictures (w : World) (s : Viewer) :
  (forall v, same_pictures s (handle w (SliderMoved v) s))
  /\ same_pictures s (handle w ToggleClicked s).
Proof.
  split.
  - intros v. apply opacity_slider_setValue_pictures.
  - apply toggle_on_top_pictures.
Qed.

(* ================================================================= *)
(** ** Invariants of a run *)

Lemma reset_app_on_top (s : Viewer) :
  is_on_top (FourRef.reset_app s) = false /\
  Z.testbit (windowFlags (FourRef.reset_app s)) 18 = false.
Proof.
  unfold FourRef.reset_app, FourRef.opacity_slider_setValue, FourRef.resize,
    FourRef.resizeEvent, setWindowFlags.
  reset_cases.
Qed.

Lemma handle_on_top_in_sync (w : World) (e : Event) (s : Viewer) :
  on_top_in_sync s -> on_top_in_sync (handle w e s).
Proof.
  unfold on_top_in_sync. intros Hs.
  destruct e as [url|mimeData|window area|v| |].
  - destruct (load_controls w (set_url_input url s)) as (Ht & Hf & _).
    cbn [handle]. rewrite Ht, Hf. exact Hs.
  - destruct (drag_and_drop_controls w mimeData s) as (Ht & Hf & _).
    cbn [handle]. rewrite Ht, Hf. exact Hs.
  - destruct (resized_controls window area s) as (Ht & Hf & _).
    cbn [handle]. rewrite Ht, Hf. exact Hs.
  - destruct (opacity_slider_setValue_pictures v s) as (_ & Ht & Hf & _).
    cbn [handle]. rewrite Ht, Hf. exact Hs.
  - cbn [handle]. rewrite toggle_on_top_flags, toggle_on_top_is_on_top.
    destruct (is_on_top s); cbn [negb].
    + rewrite Z.land_spec, Z.lnot_spec, hint_bits by lia. apply andb_false_r.
    + rewrite Z.lor_spec, hint_bits by lia. apply orb_true_r.
  - cbn [handle]. destruct (reset_app_on_top s) as [Ht Hf]. now rewrite Ht, Hf.
Qed.

(** X5.  From startup on, whatever the events, the stays-on-top window
    flag and [is_on_top] say the same. *)
Theorem on_top_in_sync_always (w0 : World) (area : QSize.t)
        (events : list (World * Event)) :
  on_top_in_sync (run events (started w0 area)).
Proof.
  assert (on_top_in_sync (started w0 area)) as H0.
  { destruct (started_controls w0 area) as (Ht & Hf & _).
    unfold on_top_in_sync. rewrite Ht, Hf. reflexivity. }
  revert H0. generalize (started w0 area).
  induction events as [|[w e] rest IH]; intros s Hs; cbn [run].
  - exact Hs.
  - apply IH. now apply handle_on_top_in_sync.
Qed.

Lemma handle_visible (w : World) (e : Event) (s : Viewer) :
  isVisible s = true -> isVisible (handle w e s) = true.
Proof.
  intros Hs. destruct e as [url|mimeData|window area|v| |].
  - destruct (load_controls w (set_url_input url s)) as (_ & _ & Hv & _).
    cbn [handle]. rewrite Hv. exact Hs.
  - destruct (drag_and_drop_controls w mimeData s) as (_ & _ & Hv & _).
    cbn [handle]. rewrite Hv. exact Hs.
  - destruct (resized_controls window area s) as (_ & _ & Hv & _).
    cbn [handle]. rewrite Hv. exact Hs.
  - destruct (opacity_slider_setValue_pictures v s) as (_ & _ & _ & Hv & _).
    cbn [handle]. rewrite Hv. exact Hs.
  - reflexivity.
  - reflexivity.
Qed.

(** X6.  Once shown, the window is never left hidden: the two handlers
    that change the window flags, which hides the window, show it again
    before they return, and no other handler hides it. *)
Theorem window_stays_visible (s : Viewer) (events : list (World * Event)) :
  isVisible (run events (show s)) = true.
Proof.
  assert (isVisible (show s) = true) as H0 by reflexivity.
  revert H0. generalize (show s).
  induction events as [|[w e] rest IH]; intros s' Hs; cbn [run].
  - exact Hs.
  - apply IH. now apply handle_visible.
Qed.

(** Without the [show] at its end [toggle_on_top] would leave the window
    hidden whenever it changes the flags. *)
Example setWindowFlags_hides :
  isVisible
    (setWindowFlags (Z.lor Qt.Window Qt.WindowStaysOnTopHint)
                    (show (FourRef.constructed (QSize.mk 400 300)))) = false.
Proof. reflexivity. Qed.

Lemma same_controls_opacity (s s' : Viewer) :
  same_controls s s' -> opacity_in_sync s -> opacity_in_sync s'.
Proof.
  intros (_ & _ & _ & _ & Hv & Ho & Hl) (Hr & Hq & Ht).
  unfold opacity_in_sync. rewrite Hv, Ho, Hl.
  split; [exact Hr | split; assumption].
Qed.

Lemma reset_app_opacity (s : Viewer) :
  opacity_slider (FourRef.reset_app s) = 100 /\
  windowOpacity (FourRef.reset_app s) = 1%Q /\
  opacity_label (FourRef.reset_app s) = "Window Opacity: 100%".
Proof.
  unfold FourRef.reset_app, FourRef.opacity_slider_setValue, FourRef.resize,
    FourRef.resizeEvent, setWindowFlags.
  cbn [url_input set_url_input image_label set_image_label original_pixmap
       set_original_pixmap scaled_pixmap set_scaled_pixmap windowFlags
       image_label_setText].
  destruct (Z.eqb _ (Z.land _ _)); cbn -[Z.eqb];
    (destruct (Z.eqb_spec 100 (opacity_slider s)) as [Heq|_];
     cbn; rewrite <- ?Heq; repeat split; reflexivity).
Qed.

Lemma handle_opacity_in_sync (w : World) (e : Event) (s : Viewer) :
  opacity_in_sync s -> opacity_in_sync (handle w e s).
Proof.
  intros Hs. destruct e as [url|mimeData|window area|v| |].
  - apply (same_controls_opacity s); [|exact Hs].
    apply (load_controls w (set_url_input url s)).
  - apply (same_controls_opacity s); [|exact Hs].
    apply drag_and_drop_controls.
  - apply (same_controls_opacity s); [|exact Hs]. apply resized_controls.
  - cbn [handle]. unfold FourRef.opacity_slider_setValue.
    destruct (Z.eqb _ _); [exact Hs|].
    unfold opacity_in_sync, FourRef.change_opacity, setWindowOpacity.
    cbn [opacity_slider set_opacity_slider set_windowOpacity set_opacity_label
         windowOpacity opacity_label].
    split; [lia|]. split; [apply kept_opacity_percent; lia | reflexivity].
  - destruct (toggle_on_top_pictures s) as (_ & Hv & Ho & Hl).
    destruct Hs as (Hr & Hq & Ht).
    cbn [handle]. unfold opacity_in_sync. rewrite Hv, Ho, Hl.
    split; [exact Hr | split; assumption].
  - destruct (reset_app_opacity s) as (Hv & Ho & Hl).
    cbn [handle]. unfold opacity_in_sync. rewrite Hv, Ho, Hl.
    split; [lia|]. split; reflexivity.
Qed.

(** X7.  From startup on, whatever the events, the slider is within 10
    and 100, the window opacity is the slider's value over 100, and the
    opacity label shows the slider's value; values outside the range
    that reach the slider are brought into it. *)
Theorem opacity_in_sync_always (w0 : World) (area : QSize.t)
        (events : list (World * Event)) :
  opacity_in_sync (run events (started w0 area)).
Proof.
  assert (opacity_in_sync (started w0 area)) as H0.
  { apply (same_controls_opacity (FourRef.constructed area));
      [apply started_controls|].
    split; [cbn; lia|]. split; reflexivity. }
  revert H0. generalize (started w0 area).
  induction events as [|[w e] rest IH]; intros s Hs; cbn [run].
  - exact Hs.
  - apply IH. now apply handle_opacity_in_sync.
Qed.

(** The slider asked for 250, then for 3. *)
Example slider_out_of_range :
  opacity_slider
    (FourRef.opacity_slider_setValue 3
       (FourRef.opacity_slider_setValue 250 (FourRef.constructed (QSize.mk 0 0))))
  = 10.
Proof. reflexivity. Qed.

(* ================================================================= *)
(** ** What is on display is derived from what is stored *)

Lemma update_image_derived (s : Viewer) (o : QPixmap.t) :
  original_pixmap s = Some o -> derived (FourRef.update_image s).
Proof.
  intros Eo. rewrite (update_image_Some s o Eo). split.
  - cbn. rewrite Eo. reflexivity.
  - intros f Hf. cbn in Hf. injection Hf as <-.
    exists o. split; [cbn; exact Eo | reflexivity].
Qed.

Lemma nothing_shown_derived (s : Viewer) :
  scaled_pixmap s = option_map FourRef.cap_stage (original_pixmap s) ->
  fit s = None -> derived s.
Proof.
  intros Hc Hf. split; [exact Hc|]. intros f H. congruence.
Qed.

Lemma same_pictures_derived (s s' : Viewer) :
  same_pictures s s' -> derived s -> derived s'.
Proof.
  intros (_ & Hl & Ho & Hc & _) [Dc Df].
  unfold derived, fit, displayArea in *. rewrite Hl, Ho, Hc.
  split; assumption.
Qed.

Lemma load_derived (w : World) (s : Viewer) :
  derived s -> derived (Py.state_of (FourRef.load_image_from_url w s)).
Proof.
  intros [Dc Df]. rewrite load_image_from_url_eq. cbn [Py.state_of].
  destruct (fetch w (url_input s)) as [e|body].
  - apply nothing_shown_derived; [exact Dc | reflexivity].
  - eapply update_image_derived. reflexivity.
Qed.

Lemma handle_derived (w : World) (e : Event) (s : Viewer) :
  derived s -> derived (handle w e s).
Proof.
  intros Hs. destruct e as [url|mimeData|window area|v| |]; cbn [handle].
  - apply load_derived. destruct Hs as [Dc Df]. split; [exact Dc | exact Df].
  - destruct (drag_and_drop_cases w mimeData s) as [E|[u E]]; rewrite E;
      [exact Hs|].
    eapply update_image_derived. reflexivity.
  - unfold FourRef.resizeEvent.
    destruct (original_pixmap s) as [o|] eqn:Eo.
    + apply (update_image_derived _ o). exact Eo.
    + rewrite update_image_None by exact Eo.
      destruct Hs as [Dc Df]. split.
      * cbn. rewrite Dc, Eo. reflexivity.
      * intros f Hf. change (fit (layout_resized window area s)) with (fit s) in Hf.
        destruct (Df f Hf) as (o & Ho & _). congruence.
  - apply (same_pictures_derived s); [|exact Hs].
    apply opacity_slider_setValue_pictures.
  - apply (same_pictures_derived s); [|exact Hs].
    apply toggle_on_top_pictures.
  - destruct (reset_app_4ref s) as [_ Hf].
    apply nothing_shown_derived; [|exact Hf].
    destruct (reset_app_clears s) as [_ Ho]. rewrite Ho.
    unfold FourRef.reset_app, FourRef.opacity_slider_setValue, FourRef.resize,
      FourRef.resizeEvent, setWindowFlags.
    cbn [url_input set_url_input image_label set_image_label original_pixmap
         set_original_pixmap scaled_pixmap set_scaled_pixmap windowFlags
         image_label_setText].
    destruct (Z.eqb _ (Z.land _ _)); cbn -[Z.eqb];
      destruct (Z.eqb 100 _); reflexivity.
Qed.

(** X8.  From startup on, whatever the events, the capped pixmap is the
    cap stage of the stored pixmap, and a pixmap on display is the fit
    stage of that for the display area as it is now: nothing on display
    is left over from an earlier picture or an earlier window size, and
    nothing is scaled from an already fitted pixmap. *)
Theorem derived_always (w0 : World) (area : QSize.t)
        (events : list (World * Event)) :
  derived (run events (started w0 area)).
Proof.
  assert (derived (started w0 area)) as H0.
  { unfold started, FourRef.__init__. rewrite auto_fetch_eq.
    destruct (existsb _ image_suffixes).
    - apply load_derived. split; [reflexivity|]. intros f Hf. discriminate.
    - split; [reflexivity|]. intros f Hf. discriminate. }
  revert H0. generalize (started w0 area).
  induction events as [|[w e] rest IH]; intros s Hs; cbn [run].
  - exact Hs.
  - apply IH. now apply handle_derived.
Qed.

(** X9.  Resizes do not add up: a resize after a resize leaves the
    viewer as the second resize alone would, and a second [resizeEvent]
    in an unchanged layout changes nothing. *)
Theorem resizes_do_not_accumulate (w : World) (s : Viewer)
        (window1 area1 window2 area2 : QSize.t) :
  handle w (Resized window2 area2) (handle w (Resized window1 area1) s)
  = handle w (Resized window2 area2) s
  /\ FourRef.resizeEvent (FourRef.resizeEvent s) = FourRef.resizeEvent s.
Proof.
  cbn [handle]. unfold FourRef.resizeEvent, FourRef.update_image, layout_resized.
  cbn [original_pixmap set_image_label set_windowSize].
  destruct (original_pixmap s) as [o|] eqn:Eo; cbn; rewrite ?Eo;
    split; reflexivity.
Qed.

(* ================================================================= *)
(** ** The network *)

Lemma handle_http_requests (w : World) (e : Event) (s : Viewer) :
  http_requests (handle w e s) =
  (http_requests s
   ++ match e with LoadClicked url => [url] | _ => [] end)%list.
Proof.
  destruct e as [url|mimeData|window area|v| |]; cbn [handle];
    rewrite ?app_nil_r.
  - apply (load_http_requests w (set_url_input url s)).
  - destruct (drag_and_drop_cases w mimeData s) as [E|[u E]]; rewrite E;
      [reflexivity|].
    now rewrite update_image_http_requests.
  - unfold FourRef.resizeEvent. now rewrite update_image_http_requests.
  - apply opacity_slider_setValue_pictures.
  - apply toggle_on_top_pictures.
  - apply reset_app_http_requests.
Qed.

(** X10.  Over a run the viewer asks the network exactly once per load
    click, for the URL clicked with and in the order of the clicks:
    drops, resizes, slider moves, toggles and resets never fetch, and a
    load is never retried. *)
Theorem http_requests_of_run (events : list (World * Event)) (s : Viewer) :
  http_requests (run events s) = (http_requests s ++ loads_of events)%list.
Proof.
  revert s. induction events as [|[w e] rest IH]; intros s; cbn [run loads_of].
  - now rewrite app_nil_r.
  - rewrite IH, handle_http_requests.
    destruct e; rewrite <- app_assoc; reflexivity.
Qed.

(* ================================================================= *)
(** ** What raises and what does not *)

(** X11.  [load_image_from_url] returns whatever the network and the
    bytes do: every exception of the fetch ends in the [except] branch.
    So do [auto_fetch_url_from_clipboard] and, from the widgets on,
    [__init__].  (Both variants.) *)
Theorem load_never_raises (w : World) (s : Viewer) (area : QSize.t) :
  (exists s', FourRef.load_image_from_url w s = Py.Returned tt s')
  /\ (exists s', FourRef.auto_fetch_url_from_clipboard w s = Py.Returned tt s')
  /\ (exists s', FourRef.__init__ w area = Py.Returned tt s')
  /\ (exists s', Ref.load_image_from_url w s = Py.Returned tt s')
  /\ (exists s', Ref.auto_fetch_url_from_clipboard w s = Py.Returned tt s').
Proof.
  assert (forall s0, exists s',
             FourRef.load_image_from_url w s0 = Py.Returned tt s') as L.
  { intros s0. eexists. apply load_image_from_url_eq. }
  assert (forall s0, exists s',
             FourRef.auto_fetch_url_from_clipboard w s0 = Py.Returned tt s') as A.
  { intros s0. rewrite auto_fetch_eq.
    destruct (existsb _ image_suffixes); [apply L | eexists; reflexivity]. }
  rewrite Ref_load_image_from_url, Ref_auto_fetch_url_from_clipboard.
  split; [apply L|]. split; [apply A|]. split; [apply A|].
  split; [apply L | apply A].
Qed.

(** X12.  [dropEvent] raises exactly when no URL can be read out of the
    payload: an [IndexError], with the viewer untouched.  [dragEnterEvent]
    accepts exactly the payloads that carry the URL-list format, so a
    drop delivered by the toolkit raises exactly when the format is
    there with no URL in it.  (Both variants.) *)
Theorem dropEvent_raises_iff_empty
        (w : World) (mimeData : QMimeData.t) (s : Viewer) :
  ((exists e s',
       FourRef.dropEvent w (QMimeData.urls mimeData) s = Py.Raised e s')
   <-> QMimeData.urls mimeData = [])
  /\ (QMimeData.urls mimeData = [] ->
      FourRef.dropEvent w (QMimeData.urls mimeData) s =
      Py.Raised (Py.mkExn "IndexError" "list index out of range") s)
  /\ (FourRef.dragEnterEvent mimeData = true
      <-> QMimeData.hasUrls mimeData = true)
  /\ ((exists e s', drag_and_drop w mimeData s = Py.Raised e s')
      <-> (QMimeData.hasUrls mimeData = true /\ QMimeData.urls mimeData = []))
  /\ (forall e s', drag_and_drop w mimeData s = Py.Raised e s' ->
        e = Py.mkExn "IndexError" "list index out of range" /\ s' = s)
  /\ Ref.dropEvent w (QMimeData.urls mimeData) s
     = FourRef.dropEvent w (QMimeData.urls mimeData) s
  /\ Ref.dragEnterEvent mimeData = FourRef.dragEnterEvent mimeData.
Proof.
  rewrite drag_and_drop_eq. unfold FourRef.dragEnterEvent.
  destruct (QMimeData.urls mimeData) as [|u rest] eqn:Eu.
  - (* no URL to read *)
    split; [|split; [|split; [|split; [|split; [|split]]]]];
      try reflexivity.
    + split; [reflexivity|]. intros _. eexists. eexists. reflexivity.
    + destruct (QMimeData.hasUrls mimeData); split; auto.
    + destruct (QMimeData.hasUrls mimeData).
      * split; [auto|]. intros _. eexists. eexists. reflexivity.
      * split; [intros (e & s' & H); discriminate | intros [H _]; discriminate].
    + intros e s' H. destruct (QMimeData.hasUrls mimeData); [|discriminate].
      injection H as <- <-. split; reflexivity.
  - (* a first URL *)
    rewrite dropEvent_eq.
    split; [|split; [|split; [|split; [|split; [|split]]]]];
      try reflexivity.
    + split; [intros (e & s' & H); discriminate | discriminate].
    + discriminate.
    + destruct (QMimeData.hasUrls mimeData); split; auto.
    + split; [|intros [_ H]; discriminate].
      intros (e & s' & H).
      destruct (QMimeData.hasUrls mimeData); discriminate.
    + intros e s' H. destruct (QMimeData.hasUrls mimeData); discriminate.
Qed.

(** A payload with the format and no URL: the drag is accepted, the drop
    raises. *)
Example drop_of_empty_uri_list :
  FourRef.dragEnterEvent (QMimeData.mk true []) = true /\
  drag_and_drop garbage (QMimeData.mk true []) showing_4ref
  = Py.Raised (Py.mkExn "IndexError" "list index out of range") showing_4ref.
Proof. split; reflexivity. Qed.

(** X13.  A load whose fetch fails changes two things only: the image
    label shows "Error loading image: " and the text of the exception,
    and the request is on record.  The URL field, the stored and the
    capped pixmap, the size of the label and every window control are as
    they were. *)
Theorem failed_fetch_changes_label_only (w : World) (s : Viewer) (e : Py.Exn) :
  fetch w (url_input s) = inl e ->
  let s' := Py.state_of (FourRef.load_image_from_url w s) in
  QLabel.content (image_label s')
  = QLabel.Text ("Error loading image: " ++ Py.str_exn e)
  /\ http_requests s' = (http_requests s ++ [url_input s])%list
  /\ url_input s' = url_input s
  /\ original_pixmap s' = original_pixmap s
  /\ scaled_pixmap s' = scaled_pixmap s
  /\ QLabel.size (image_label s') = QLabel.size (image_label s)
  /\ windowSize s' = windowSize s
  /\ same_controls s s'.
Proof.
  intros Hf. cbv zeta. rewrite load_image_from_url_eq, Hf. cbn [Py.state_of].
  repeat split; reflexivity.
Qed.

(** The theorem at a 404 over a picture on display. *)
Lemma failed_fetch_changes_label_only_witness :
  fetch not_found (url_input showing_4ref)
  = inl (Py.mkExn "HTTPError"
           "404 Client Error: Not Found for url: http://example.org/a.png")
  /\ original_pixmap
       (Py.state_of (FourRef.load_image_from_url not_found showing_4ref))
     = original_pixmap showing_4ref.
Proof.
  assert (fetch not_found (url_input showing_4ref)
          = inl (Py.mkExn "HTTPError"
                   "404 Client Error: Not Found for url: http://example.org/a.png"))
    as H by reflexivity.
  split; [exact H|].
  destruct (failed_fetch_changes_label_only not_found showing_4ref _ H)
    as (_ & _ & _ & Ho & _).
  exact Ho.
Defined.

(* ================================================================= *)
(** ** The clipboard test and letter case *)

Lemma load_changes_viewer (w : World) (s0 s : Viewer) :
  FourRef.load_image_from_url w s0 = Py.Returned tt s ->
  http_requests s = (http_requests s0 ++ [url_input s0])%list.
Proof.
  intros H. rewrite <- (load_http_requests w s0), H. reflexivity.
Qed.

(** The clipboard text is ignored exactly when the test fails. *)
Lemma ignored_iff (w : World) (s : Viewer) :
  FourRef.auto_fetch_url_from_clipboard w s = Py.Returned tt s <->
  existsb (fun ext => Py.endswith (Py.lower (clipboard_text w)) ext)
          image_suffixes = false.
Proof.
  rewrite auto_fetch_eq.
  destruct (existsb _ image_suffixes); split; try reflexivity; try discriminate.
  intros H. exfalso. apply load_changes_viewer in H. cbn in H.
  apply (f_equal (@List.length string)) in H.
  rewrite length_app in H. cbn in H. lia.
Qed.

(** X14.  The clipboard test does not tell letter cases apart: two
    clipboard texts that differ in the case of their letters only are
    both ignored or both loaded. *)
Theorem clipboard_gate_ignores_case (w w' : World) (s : Viewer) :
  Py.lower (clipboard_text w) = Py.lower (clipboard_text w') ->
  (FourRef.auto_fetch_url_from_clipboard w s = Py.Returned tt s <->
   FourRef.auto_fetch_url_from_clipboard w' s = Py.Returned tt s).
Proof.
  intros H. rewrite !ignored_iff, H. reflexivity.
Qed.

(** The theorem at "cat.PNG" and "CAT.png": neither is ignored. *)
Lemma clipboard_gate_ignores_case_witness :
  Py.lower "cat.PNG" = Py.lower "CAT.png" /\
  (FourRef.auto_fetch_url_from_clipboard
     (clipboard_holding "cat.PNG") (FourRef.constructed (QSize.mk 0 0))
   = Py.Returned tt (FourRef.constructed (QSize.mk 0 0))
   <->
   FourRef.auto_fetch_url_from_clipboard
     (clipboard_holding "CAT.png") (FourRef.constructed (QSize.mk 0 0))
   = Py.Returned tt (FourRef.constructed (QSize.mk 0 0))).
Proof.
  assert (Py.lower "cat.PNG" = Py.lower "CAT.png") as H by reflexivity.
  split; [exact H|].
  exact (clipboard_gate_ignores_case
           (clipboard_holding "cat.PNG") (clipboard_holding "CAT.png")
           (FourRef.constructed (QSize.mk 0 0)) H).
Defined.

(* ================================================================= *)
(** ** Reset, in full *)

Lemma viewer_ext (a b : Viewer) :
  url_input a = url_input b -> image_label a = image_label b ->
  original_pixmap a = original_pixmap b -> scaled_pixmap a = scaled_pixmap b ->
  is_on_top a = is_on_top b -> toggle_top_button a = toggle_top_button b ->
  opacity_slider a = opacity_slider b -> opacity_label a = opacity_label b ->
  windowFlags a = windowFlags b -> windowSize a = windowSize b ->
  windowOpacity a = windowOpacity b -> isVisible a = isVisible b ->
  http_requests a = http_requests b -> a = b.
Proof.
  destruct a, b. cbn. intros. subst. reflexivity.
Qed.

(** What [reset_app] leaves: of the viewer it started from only the size
    of the image label, the caption of the toggle button, the other
    window flags and the record of requests remain. *)
Lemma reset_app_form (s : Viewer) :
  FourRef.reset_app s =
  mkViewer "" (QLabel.mk (QLabel.Text placeholder) (QLabel.size (image_label s)))
           None None false (toggle_top_button s) 100 "Window Opacity: 100%"
           (Z.land (windowFlags s) (Z.lnot Qt.WindowStaysOnTopHint))
           (QSize.mk 480 360) 1 true (http_requests s).
Proof.
  unfold FourRef.reset_app, FourRef.opacity_slider_setValue, FourRef.resize,
    FourRef.resizeEvent, setWindowFlags.
  cbn [url_input set_url_input image_label set_image_label original_pixmap
       set_original_pixmap scaled_pixmap set_scaled_pixmap windowFlags
       image_label_setText].
  destruct (Z.eqb_spec (windowFlags s)
              (Z.land (windowFlags s) (Z.lnot Qt.WindowStaysOnTopHint)))
    as [Heq|_]; cbn -[Z.eqb Z.land Z.lnot];
    (destruct (Z.eqb_spec 100 (opacity_slider s)) as [Hs|_];
     apply viewer_ext; cbn -[Z.land Z.lnot]; rewrite <- ?Hs;
     try reflexivity; exact Heq).
Qed.

Lemma reset_app_form_Ref (s : Viewer) :
  Ref.reset_app s =
  mkViewer "" (QLabel.mk (QLabel.Text placeholder) (QLabel.size (image_label s)))
           None None false (toggle_top_button s) 100 "Window Opacity: 100%"
           (Z.land (windowFlags s) (Z.lnot Qt.WindowStaysOnTopHint))
           (QSize.mk 400 300) 1 true (http_requests s).
Proof.
  unfold Ref.reset_app, Ref.opacity_slider_setValue, Ref.resize,
    Ref.resizeEvent, setWindowFlags.
  cbn [url_input set_url_input image_label set_image_label original_pixmap
       set_original_pixmap scaled_pixmap set_scaled_pixmap windowFlags
       image_label_setText].
  destruct (Z.eqb_spec (windowFlags s)
              (Z.land (windowFlags s) (Z.lnot Qt.WindowStaysOnTopHint)))
    as [Heq|_]; cbn -[Z.eqb Z.land Z.lnot];
    (destruct (Z.eqb_spec 100 (opacity_slider s)) as [Hs|_];
     apply viewer_ext; cbn -[Z.land Z.lnot]; rewrite <- ?Hs;
     try reflexivity; exact Heq).
Qed.

Lemma land_twice (a b : Z) : Z.land (Z.land a b) b = Z.land a b.
Proof. now rewrite <- Z.land_assoc, Z.land_diag. Qed.

(** X15.  A second [reset_app] changes nothing, whatever the viewer was
    before the first.  (Both variants.) *)
Theorem reset_app_idempotent (s : Viewer) :
  FourRef.reset_app (FourRef.reset_app s) = FourRef.reset_app s
  /\ Ref.reset_app (Ref.reset_app s) = Ref.reset_app s.
Proof.
  split.
  - rewrite (reset_app_form s), reset_app_form.
    cbn [image_label QLabel.size toggle_top_button windowFlags http_requests].
    now rewrite land_twice.
  - rewrite (reset_app_form_Ref s), reset_app_form_Ref.
    cbn [image_label QLabel.size toggle_top_button windowFlags http_requests].
    now rewrite land_twice.
Qed.

(** X16.  [reset_app] does not touch the caption of the toggle button:
    after always-on-top was switched on and the viewer reset, the caption
    still reads "(ON)" while always-on-top is off. *)
Theorem reset_app_leaves_caption_on (s : Viewer) :
  is_on_top s = false ->
  toggle_top_button (FourRef.reset_app (FourRef.toggle_on_top s))
  = "Toggle Always-on-Top (ON)"
  /\ is_on_top (FourRef.reset_app (FourRef.toggle_on_top s)) = false
  /\ Z.testbit (windowFlags (FourRef.reset_app (FourRef.toggle_on_top s))) 18
     = false.
Proof.
  intros Hoff. rewrite reset_app_form.
  cbn [toggle_top_button is_on_top windowFlags].
  split; [|split; [reflexivity | apply stays_on_top_cleared]].
  unfold FourRef.toggle_on_top, setWindowFlags. rewrite Hoff.
  destruct (Z.eqb _ _); reflexivity.
Qed.

(** The theorem at the viewer just built. *)
Lemma reset_app_leaves_caption_on_witness :
  is_on_top (FourRef.constructed (QSize.mk 400 300)) = false /\
  toggle_top_button
    (FourRef.reset_app
       (FourRef.toggle_on_top (FourRef.constructed (QSize.mk 400 300))))
  = "Toggle Always-on-Top (ON)".
Proof.
  assert (is_on_top (FourRef.constructed (QSize.mk 400 300)) = false) as H
      by reflexivity.
  split; [exact H|].
  exact (proj1 (reset_app_leaves_caption_on
                  (FourRef.constructed (QSize.mk 400 300)) H)).
Defined.

(* ================================================================= *)
(** ** The font stage *)

(** X17.  The font stage of [__init__] in [src/4ref.py] raises exactly
    when the font file exists and loads but the font database lists no
    family for it: an [IndexError], with no font set and nothing
    printed.  In every other case it returns the base path with a
    14-point application font set: the first family of the loaded font,
    with nothing printed; "TMT Paint" after the line "Failed to load the
    font from <path>." when the file exists and does not load; "TMT
    Paint" after the line "Font file not found at <path>." when the file
    does not exist. *)
Theorem init_font_spec (h : Host) (p : Process) :
  let base :=
    match meipass h with Some dir => dir | None => abspath_dot h end in
  let path := path_join h base "TMT-Paint-Regular.otf" in
  let id := addApplicationFont h path in
  ((exists e p', init_font h p = Py.Raised e p') <->
   (path_exists h path = true /\ id <> -1 /\
    applicationFontFamilies h id = []))
  /\ (path_exists h path = true -> id <> -1 ->
      applicationFontFamilies h id = [] ->
      init_font h p
      = Py.Raised (Py.mkExn "IndexError" "list index out of range") p)
  /\ (forall fam rest,
        path_exists h path = true -> id <> -1 ->
        applicationFontFamilies h id = fam :: rest ->
        init_font h p
        = Py.Returned base (mkProcess (Some (QFont.mk fam 14)) (stdout p)))
  /\ (path_exists h path = true -> id = -1 ->
      init_font h p
      = Py.Returned base
          (mkProcess (Some (QFont.mk "TMT Paint" 14))
             (stdout p ++ [("Failed to load the font from " ++ path ++ ".")%string])%list))
  /\ (path_exists h path = false ->
      init_font h p
      = Py.Returned base
          (mkProcess (Some (QFont.mk "TMT Paint" 14))
             (stdout p ++ [("Font file not found at " ++ path ++ ".")%string])%list)).
Proof.
  cbv zeta. unfold init_font, Py.bind, Py.call, Py.index0, Py.ret, Py.raise.
  set (base := match meipass h with Some dir => dir | None => abspath_dot h end).
  set (path := path_join h base "TMT-Paint-Regular.otf").
  set (id := addApplicationFont h path).
  destruct (path_exists h path) eqn:Ex.
  - destruct (Z.eqb_spec id (-1)) as [Eid|Nid].
    + split; [|split; [|split; [|split]]].
      * split; [intros (e & p' & H); discriminate | intros (_ & N & _); lia].
      * intros _ N. lia.
      * intros fam rest _ N. lia.
      * intros _ _. reflexivity.
      * discriminate.
    + destruct (applicationFontFamilies h id) as [|fam rest] eqn:Ef.
      * split; [|split; [|split; [|split]]].
        -- split; [intros _; repeat split; assumption|].
           intros _. eexists. eexists. reflexivity.
        -- intros _ _ _. reflexivity.
        -- intros fam rest _ _ H. discriminate.
        -- intros _ E. lia.
        -- discriminate.
      * split; [|split; [|split; [|split]]].
        -- split; [intros (e & p' & H); discriminate|].
           intros (_ & _ & H). discriminate.
        -- intros _ _ H. discriminate.
        -- intros fam' rest' _ _ H. injection H as <- _. reflexivity.
        -- intros _ E. lia.
        -- discriminate.
  - split; [|split; [|split; [|split]]].
    + split; [intros (e & p' & H); discriminate|].
      intros (H & _). discriminate.
    + discriminate.
    + intros fam rest H. discriminate.
    + discriminate.
    + intros _. reflexivity.
Qed.

(** The font file loads and the database lists no family for it: the
    constructor raises. *)
Example init_font_no_family :
  init_font
    (mkHost None "/opt/4ref" (fun a b => a ++ "/" ++ b) (fun _ => true)
            (fun _ => 0) (fun _ => []))
    (mkProcess None [])
  = Py.Raised (Py.mkExn "IndexError" "list index out of range")
              (mkProcess None []).
Proof. reflexivity. Qed.

Example init_font_does_not_load :
  init_font
    (mkHost None "/opt/4ref" (fun a b => a ++ "/" ++ b) (fun _ => true)
            (fun _ => -1) (fun _ => []))
    (mkProcess None [])
  = Py.Returned "/opt/4ref"
      (mkProcess (Some (QFont.mk "TMT Paint" 14))
         ["Failed to load the font from /opt/4ref/TMT-Paint-Regular.otf."]).
Proof. reflexivity. Qed.

Example init_font_found :
  init_font host_with_font (mkProcess None []) =
  Py.Returned "/opt/4ref" (mkProcess (Some (QFont.mk "TMT Paint" 14)) []).
Proof. reflexivity. Qed.

Example init_font_not_found :
  init_font host_without_font (mkProcess None []) =
  Py.Returned "/opt/4ref"
    (mkProcess (Some (QFont.mk "TMT Paint" 14))
       ["Font file not found at /opt/4ref/TMT-Paint-Regular.otf."]).
Proof. reflexivity. Qed.

(* ================================================================= *)
(** ** The error text and the next resize *)

(** X18.  The error text of a failed load lasts until the next resize
    only if no pixmap is stored: with one stored, the resize puts that
    pixmap, fitted to the new area, back on display in place of the
    text. *)
Theorem error_text_until_resize
        (w : World) (s : Viewer) (e : Py.Exn) (window area : QSize.t) :
  fetch w (url_input s) = inl e ->
  (original_pixmap s = None ->
   QLabel.content
     (image_label
        (handle w (Resized window area)
                (Py.state_of (FourRef.load_image_from_url w s))))
   = QLabel.Text ("Error loading image: " ++ Py.str_exn e))
  /\
  (forall o, original_pixmap s = Some o ->
   QLabel.content
     (image_label
        (handle w (Resized window area)
                (Py.state_of (FourRef.load_image_from_url w s))))
   = QLabel.Picture (FourRef.fit_stage (FourRef.cap_stage o) area)).
Proof.
  intros Hf. rewrite load_image_from_url_eq, Hf. cbn [Py.state_of handle].
  unfold FourRef.resizeEvent. split.
  - intros Ho. rewrite update_image_None by exact Ho. reflexivity.
  - intros o Ho. rewrite (update_image_Some _ o) by exact Ho. reflexivity.
Qed.

(** The theorem at a 404 over the 100 by 50 picture, then a resize to a
    200 by 200 area: the picture is back, 200 by 100. *)
Lemma error_text_until_resize_witness :
  fetch not_found (url_input showing_4ref)
  = inl (Py.mkExn "HTTPError"
           "404 Client Error: Not Found for url: http://example.org/a.png")
  /\
  QLabel.content
    (image_label
       (handle not_found (Resized (QSize.mk 300 400) (QSize.mk 200 200))
               (Py.state_of
                  (FourRef.load_image_from_url not_found showing_4ref))))
  = QLabel.Picture
      (FourRef.fit_stage (FourRef.cap_stage (picture 100 50)) (QSize.mk 200 200)).
Proof.
  assert (fetch not_found (url_input showing_4ref)
          = inl (Py.mkExn "HTTPError"
                   "404 Client Error: Not Found for url: http://example.org/a.png"))
    as H by reflexivity.
  split; [exact H|].
  exact (proj2 (error_text_until_resize not_found showing_4ref _
                  (QSize.mk 300 400) (QSize.mk 200 200) H)
               (picture 100 50) eq_refl).
Defined.

(* ================================================================= *)
(** ** Scaling again *)

Lemma size_scaled_eq (w h W H : Z) :
  1 <= w -> 1 <= h ->
  Qt.size_scaled (QSize.mk w h) (QSize.mk W H) Qt.KeepAspectRatio =
  if (H * w) ÷ h <=? W then QSize.mk ((H * w) ÷ h) H
  else QSize.mk W ((W * h) ÷ w).
Proof.
  intros Hw Hh. unfold Qt.size_scaled. positive_size. reflexivity.
Qed.

(** A size scaled into a box, scaled into the same box again, stays. *)
Lemma size_scaled_again (w h W H : Z) :
  1 <= w -> 1 <= h -> 1 <= W -> 1 <= H ->
  let r := Qt.size_scaled (QSize.mk w h) (QSize.mk W H) Qt.KeepAspectRatio in
  let w' := Z.max (QSize.width r) 1 in
  let h' := Z.max (QSize.height r) 1 in
  let r' := Qt.size_scaled (QSize.mk w' h') (QSize.mk W H) Qt.KeepAspectRatio in
  Z.max (QSize.width r') 1 = w' /\ Z.max (QSize.height r') 1 = h'.
Proof.
  intros Hw Hh HW HH. cbv zeta.
  rewrite (size_scaled_eq w h W H Hw Hh).
  pose proof (quot_bounds (H * w) h ltac:(nia) ltac:(lia)) as Q1.
  pose proof (quot_bounds (W * h) w ltac:(nia) ltac:(lia)) as Q2.
  set (q1 := (H * w) ÷ h) in *. set (q2 := (W * h) ÷ w) in *.
  destruct (Z.leb_spec q1 W) as [L|L]; cbn [QSize.width QSize.height].
  - (* the height was kept *)
    rewrite (Z.max_l H 1) by lia.
    set (w' := Z.max q1 1). assert (1 <= w' <= W) as Bw by lia.
    rewrite (size_scaled_eq w' H W H) by lia.
    assert ((H * w') ÷ H = w') as E.
    { rewrite Z.mul_comm. apply Z.quot_mul. lia. }
    rewrite E. destruct (Z.leb_spec w' W); [|lia].
    cbn [QSize.width QSize.height]. lia.
  - (* the width was kept *)
    rewrite (Z.max_l W 1) by lia.
    assert (0 <= q2 < H) as B2 by nia.
    set (h' := Z.max q2 1). assert (1 <= h' <= H) as Bh by lia.
    rewrite (size_scaled_eq W h' W H) by lia.
    pose proof (quot_bounds (H * W) h' ltac:(nia) ltac:(lia)) as Q3.
    assert ((W * h') ÷ W = h') as E.
    { rewrite Z.mul_comm. apply Z.quot_mul. lia. }
    destruct (Z.leb_spec ((H * W) ÷ h') W) as [L'|L'];
      cbn [QSize.width QSize.height].
    + (* then the heights agree *)
      assert (h' = H) as EH.
      { destruct (Z.max_spec q2 1) as [[? Hm]|[? Hm]]; fold h' in Hm; nia. }
      rewrite EH in *.
      assert ((H * W) ÷ H = W) as E'.
      { rewrite Z.mul_comm. apply Z.quot_mul. lia. }
      rewrite E'. lia.
    + rewrite E. lia.
Qed.

Lemma scaled_again (p : QPixmap.t) (s : QSize.t) m :
  QPixmap.scaled (QPixmap.scaled p s Qt.KeepAspectRatio m) s
                 Qt.KeepAspectRatio m
  = QPixmap.scaled p s Qt.KeepAspectRatio m.
Proof.
  destruct (QPixmap.isNull p) eqn:Hp.
  - rewrite (scaled_null p) by exact Hp. now apply scaled_null.
  - destruct (QSize.isEmpty s) eqn:Hs.
    + assert (QPixmap.scaled p s Qt.KeepAspectRatio m = QPixmap.null) as E.
      { unfold QPixmap.scaled. now rewrite Hp, Hs. }
      rewrite E. now apply scaled_null.
    + pose proof (scaled_keep p s m Hp Hs) as K. cbv zeta in K.
      pose proof (scaled_size p s Qt.KeepAspectRatio m Hp Hs) as [Ew Eh].
      set (r := QPixmap.scaled p s Qt.KeepAspectRatio m) in *.
      assert (QPixmap.isNull r = false) as Hr by (apply isNull_false; lia).
      apply isNull_false in Hp. apply isEmpty_false in Hs.
      destruct s as [W H]. cbn [QSize.width QSize.height] in *.
      pose proof (size_scaled_again (QPixmap.width p) (QPixmap.height p) W H
                    ltac:(lia) ltac:(lia) ltac:(lia) ltac:(lia)) as A.
      cbv zeta in A. unfold QPixmap.size in Ew, Eh.
      rewrite <- Ew, <- Eh in A. destruct A as [Aw Ah].
      unfold QPixmap.scaled at 1. rewrite Hr.
      replace (QSize.isEmpty (QSize.mk W H)) with false
        by (symmetry; apply isEmpty_false; cbn; lia).
      cbv zeta. unfold QPixmap.size at 1 2. rewrite Aw, Ah.
      unfold QSize.eqb. cbn [QSize.width QSize.height].
      now rewrite !Z.eqb_refl.
Qed.

(** X19.  Scaling again changes nothing: the cap stage of a capped
    pixmap and the fit stage, for the same area, of a fitted pixmap give
    the very pixmap back, with no second resampling.  (Every pixmap and
    every area; both variants.) *)
Theorem stages_are_idempotent (p : QPixmap.t) (area : QSize.t) :
  FourRef.cap_stage (FourRef.cap_stage p) = FourRef.cap_stage p
  /\ FourRef.fit_stage (FourRef.fit_stage p area) area = FourRef.fit_stage p area
  /\ Ref.cap_stage (Ref.cap_stage p) = Ref.cap_stage p
  /\ Ref.fit_stage (Ref.fit_stage p area) area = Ref.fit_stage p area.
Proof.
  rewrite Ref_cap_stage, Ref_fit_stage.
  assert (FourRef.cap_stage (FourRef.cap_stage p) = FourRef.cap_stage p) as C.
  { destruct (cap_stage_within p) as [Hw Hh]. now apply cap_stage_small. }
  assert (FourRef.fit_stage (FourRef.fit_stage p area) area
          = FourRef.fit_stage p area) as F.
  { destruct (Z.gtb_spec (QSize.width area) 0) as [Hw|Hw];
      [destruct (Z.gtb_spec (QSize.height area) 0) as [Hh|Hh]|].
    - rewrite !fit_stage_room by lia. apply scaled_again.
    - rewrite !fit_stage_no_room by lia. reflexivity.
    - rewrite !fit_stage_no_room by lia. reflexivity. }
  repeat split; assumption.
Qed.

(** The 1600 by 1200 picture, capped and capped again. *)
Example cap_twice :
  FourRef.cap_stage (FourRef.cap_stage (picture 1600 1200))
  = QPixmap.mk 800 600
      (QPixmap.Resampled (QPixmap.FromData some_bytes) 800 600
                         Qt.SmoothTransformation).
Proof. reflexivity. Qed.
